(** * Code Runner Dashboard: a shallow embedding of [app.py]

    The service keeps an in-memory table [RUNNING_PROCESSES] of started
    scripts and drives the operating system (files, processes) on behalf of
    its HTTP endpoints.  Each endpoint of [app.py] is embedded as a function
    that threads the [world] (supervisor memory plus an explicit model of the
    operating system) and yields what the handler returns or raises.

    Conventions.
    - Python dictionaries are association lists in insertion order
      ([restart_all] iterates over [list(RUNNING_PROCESSES.keys())]).
    - JSON-like handler results are values of type [json]; a handler's
      dictionary literal is written key by key as in the source.
    - [datetime.now().isoformat()] is the reading of the [clock]; calendar
      rendering is not modelled.
    - File handles are tracked by the explicit [open]/[close] calls of the
      program text ([with] closes on exit); reclamation of forgotten file
      objects by the interpreter's finaliser is not part of the program and
      is not modelled.
    - The file system has directories and regular files, no symbolic links and
      no permission bits. *)

From Stdlib Require Import String Ascii List ZArith Bool Lia QArith.
Import ListNotations.

Open Scope string_scope.
Open Scope list_scope.
Open Scope Z_scope.

(* ================================================================== *)
(** ** Python values used by the handlers *)

Module Py.

(** *** Strings *)

(** [s.endswith(suffix)] *)
Definition endswith (s suffix : string) : bool :=
  let n := String.length s in
  let m := String.length suffix in
  (m <=? n)%nat && String.eqb (substring (n - m) m s) suffix.

(** [s.startswith(p)] *)
Fixpoint startswith (s p : string) {struct p} : bool :=
  match p, s with
  | EmptyString, _ => true
  | String a p', String b s' => Ascii.eqb a b && startswith s' p'
  | String _ _, EmptyString => false
  end.

(** [s.split(sep)] for a one-character separator. *)
Fixpoint split (sep : ascii) (s : string) : list string :=
  match s with
  | EmptyString => [EmptyString]
  | String c s' =>
      if Ascii.eqb c sep then EmptyString :: split sep s'
      else match split sep s' with
           | [] => [String c EmptyString]
           | h :: t => String c h :: t
           end
  end.

(** ["".join(parts)] *)
Definition join_empty (parts : list string) : string :=
  fold_right String.append EmptyString parts.

Definition LF : ascii := Ascii.ascii_of_nat 10.
Definition CR : ascii := Ascii.ascii_of_nat 13.

(** Text-mode reading with the default [newline=None]: the sequences CR LF
    and a lone CR are delivered as LF. *)
Fixpoint universal_newlines (s : string) : string :=
  match s with
  | EmptyString => EmptyString
  | String c s' =>
      if Ascii.eqb c CR then
        match s' with
        | String c' _ =>
            if Ascii.eqb c' LF then universal_newlines s'
            else String LF (universal_newlines s')
        | EmptyString => String LF EmptyString
        end
      else String c (universal_newlines s')
  end.

(** [f.readlines()] on text already newline-translated: every line keeps its
    terminating LF; a last line without one is kept as it is. *)
Fixpoint readlines (s : string) : list string :=
  match s with
  | EmptyString => []
  | String c s' =>
      if Ascii.eqb c LF then String c EmptyString :: readlines s'
      else match readlines s' with
           | [] => [String c EmptyString]
           | l :: ls => String c l :: ls
           end
  end.

(** *** Slices *)

(** [l[start:]], with the index adjustment of [PySlice_AdjustIndices]: a
    negative start counts from the end and is clipped at 0; a start beyond
    the end is clipped at the length. *)
Definition slice_from {A : Type} (start : Z) (l : list A) : list A :=
  let len := Z.of_nat (List.length l) in
  let start' :=
    if start <? 0 then (if start + len <? 0 then 0 else start + len)
    else (if len <? start then len else start) in
  skipn (Z.to_nat start') l.

(** *** Dictionaries (insertion ordered) *)

Section Dict.
Context {V : Type}.

Definition dict := list (string * V).

(** [d.get(k)] / [d[k]] *)
Fixpoint get (k : string) (d : dict) : option V :=
  match d with
  | [] => None
  | (k', v) :: d' => if String.eqb k k' then Some v else get k d'
  end.

(** [k in d] *)
Definition contains (k : string) (d : dict) : bool :=
  match get k d with Some _ => true | None => false end.

(** [d[k] = v]: an existing key keeps its position, a new key goes last. *)
Fixpoint setitem (k : string) (v : V) (d : dict) : dict :=
  match d with
  | [] => [(k, v)]
  | (k', v') :: d' =>
      if String.eqb k k' then (k, v) :: d'
      else (k', v') :: setitem k v d'
  end.

(** [del d[k]] (only called on present keys by the source). *)
Definition delitem (k : string) (d : dict) : dict :=
  filter (fun e => negb (String.eqb k (fst e))) d.

(** [list(d.keys())] *)
Definition keys (d : dict) : list string := map fst d.

(** [len(d)] *)
Definition len (d : dict) : Z := Z.of_nat (List.length d).

(** How many entries a key has in the table. *)
Definition entries_for (k : string) (d : dict) : nat :=
  List.length (filter (fun e => String.eqb k (fst e)) d).
End Dict.
Arguments dict V : clear implicits.

(** *** JSON-like results *)

#[local] Set Warnings "-register-all".

Inductive json : Type :=
| JNull
| JBool (b : bool)
| JInt (z : Z)
| JNum (q : Q)
| JStr (s : string)
| JList (l : list json)
| JObj (fields : list (string * json)).

Definition field (k : string) (j : json) : option json :=
  match j with
  | JObj fs => get k fs
  | _ => None
  end.

(** *** Exceptions *)

(** The built-in exceptions the operating-system calls of the service raise. *)
Inductive exn : Type :=
| FileNotFoundError
| NotADirectoryError
| IsADirectoryError
| PermissionError
| ProcessLookupError
| UnicodeDecodeError
| KeyError (key : string)
| OSError (errno : Z).

End Py.

Import Py.

(* ================================================================== *)
(** ** The operating system as the service sees it *)

Module OS.

(** *** Paths *)

(** [os.path.join(a, b)] of [posixpath]: an absolute [b] discards [a];
    otherwise the parts are joined by one separator. *)
Definition path_join (a b : string) : string :=
  if startswith b "/" then b
  else if String.eqb a "" || endswith a "/" then (a ++ b)%string
  else (a ++ "/" ++ b)%string.

(** A resolved location: the names from the root down to the entry. *)
Definition path := list string.

Fixpoint path_eqb (p q : path) : bool :=
  match p, q with
  | [], [] => true
  | a :: p', b :: q' => String.eqb a b && path_eqb p' q'
  | _, _ => false
  end.

(** [is_prefix d p]: [p] lies at or below directory [d]. *)
Fixpoint is_prefix (d p : path) : bool :=
  match d, p with
  | [], _ => true
  | a :: d', b :: p' => String.eqb a b && is_prefix d' p'
  | _ :: _, [] => false
  end.

(** *** Files *)

Inductive inode : Type :=
| IDir (st_size : Z) (st_ctime : Z)
| IFile (data : string) (st_ctime : Z).

Definition getsize (i : inode) : Z :=
  match i with
  | IDir sz _ => sz
  | IFile data _ => Z.of_nat (String.length data)
  end.

Definition getctime (i : inode) : Z :=
  match i with
  | IDir _ t => t
  | IFile _ t => t
  end.

(** Every entry under its resolved path, the root directory under [[]]; the
    order of the list is the order in which [os.listdir] reports the entries
    of a directory. *)
Definition filesystem := list (path * inode).

Fixpoint lookup (p : path) (fs : filesystem) : option inode :=
  match fs with
  | [] => None
  | (q, i) :: fs' => if path_eqb p q then Some i else lookup p fs'
  end.

(** Replace the entry at [p], or add it last. *)
Fixpoint store (p : path) (i : inode) (fs : filesystem) : filesystem :=
  match fs with
  | [] => [(p, i)]
  | (q, j) :: fs' =>
      if path_eqb p q then (p, i) :: fs' else (q, j) :: store p i fs'
  end.

Definition is_dir (fs : filesystem) (p : path) : bool :=
  match lookup p fs with Some (IDir _ _) => true | _ => false end.

Definition present (fs : filesystem) (p : path) : bool :=
  match lookup p fs with Some _ => true | None => false end.

(** Path resolution, component by component: an empty component and [.]
    stay, [..] goes to the parent, a name goes down; each step is taken from
    an existing directory. *)
Fixpoint walk (fs : filesystem) (cur : path) (comps : list string)
  : exn + path :=
  match comps with
  | [] => inr cur
  | c :: rest =>
      if negb (is_dir fs cur) then
        inl (if present fs cur then NotADirectoryError else FileNotFoundError)
      else if String.eqb c "" || String.eqb c "." then walk fs cur rest
      else if String.eqb c ".." then walk fs (removelast cur) rest
      else walk fs (cur ++ [c]) rest
  end.

(** Resolution of an absolute path name (all path names the service builds
    are absolute). *)
Definition resolve (fs : filesystem) (name : string) : exn + path :=
  walk fs [] (split "/" name).

(** [os.path.exists(name)] *)
Definition path_exists (fs : filesystem) (name : string) : bool :=
  match resolve fs name with
  | inr p => present fs p
  | inl _ => false
  end.

(** The names directly inside directory [d], in directory order. *)
Fixpoint children (d : path) (fs : filesystem) : list string :=
  match fs with
  | [] => []
  | (q, _) :: fs' =>
      match q with
      | [] => children d fs'
      | _ :: _ =>
          if path_eqb (removelast q) d then last q "" :: children d fs'
          else children d fs'
      end
  end.

(** [os.listdir(name)] *)
Definition listdir (fs : filesystem) (name : string) : exn + list string :=
  match resolve fs name with
  | inl e => inl e
  | inr d =>
      if is_dir fs d then inr (children d fs)
      else inl (if present fs d then NotADirectoryError else FileNotFoundError)
  end.

(** [os.stat(name)], as far as [getsize] and [getctime] need it. *)
Definition stat (fs : filesystem) (name : string) : exn + inode :=
  match resolve fs name with
  | inl e => inl e
  | inr p =>
      match lookup p fs with
      | Some i => inr i
      | None => inl FileNotFoundError
      end
  end.

(** [os.path.getsize(name)] *)
Definition path_getsize (fs : filesystem) (name : string) : exn + Z :=
  match stat fs name with
  | inl e => inl e
  | inr i => inr (getsize i)
  end.

(** [os.path.getctime(name)] *)
Definition path_getctime (fs : filesystem) (name : string) : exn + Z :=
  match stat fs name with
  | inl e => inl e
  | inr i => inr (getctime i)
  end.

(** *** Processes *)

Record process : Type := mkProcess {
  pgid : Z;                (* process group *)
  signalable : bool;       (* may this service signal it *)
  argv : list string;
  stdout : path;           (* where its output goes (stderr joins it) *)
  cpu_percent : Q;
  rss : Z                  (* resident set size, bytes *)
}.

Fixpoint find_process (pid : Z) (ps : list (Z * process)) : option process :=
  match ps with
  | [] => None
  | (q, p) :: ps' => if Z.eqb pid q then Some p else find_process pid ps'
  end.

(** *** The state of the machine *)

Record state : Type := mkState {
  fs : filesystem;
  open_files : list path;          (* file objects this service holds open *)
  procs : list (Z * process);      (* live processes by PID *)
  next_pid : Z;
  spawn_fault : option exn;        (* set when fork/exec of the interpreter fails *)
  clock : Z
}.

Definition with_fs (s : state) (f : filesystem) : state :=
  mkState f (open_files s) (procs s) (next_pid s) (spawn_fault s) (clock s).

Definition with_open_files (s : state) (o : list path) : state :=
  mkState (fs s) o (procs s) (next_pid s) (spawn_fault s) (clock s).

Definition with_procs (s : state) (ps : list (Z * process)) (np : Z) : state :=
  mkState (fs s) (open_files s) ps np (spawn_fault s) (clock s).

Definition with_clock (s : state) (t : Z) : state :=
  mkState (fs s) (open_files s) (procs s) (next_pid s) (spawn_fault s) t.

(** [datetime.now()] *)
Definition now (s : state) : Z := clock s.

(** [time.sleep(d)] and other blocking waits. *)
Definition sleep (d : Z) (s : state) : state := with_clock s (clock s + d).

(** [open(name, 'wb')] ([truncate = true]) and [open(name, 'a')]
    ([truncate = false]): the file is created in an existing directory when
    absent; the handle is recorded as open. *)
Definition open_write (truncate : bool) (name : string) (s : state)
  : exn + (path * state) :=
  match resolve (fs s) name with
  | inl e => inl e
  | inr p =>
      match lookup p (fs s) with
      | Some (IDir _ _) => inl IsADirectoryError
      | Some (IFile data t) =>
          let fs' :=
            if truncate then store p (IFile "" (clock s)) (fs s) else fs s in
          inr (p, with_open_files (with_fs s fs') (p :: open_files s))
      | None =>
          if is_dir (fs s) (removelast p) then
            let fs' := store p (IFile "" (clock s)) (fs s) in
            inr (p, with_open_files (with_fs s fs') (p :: open_files s))
          else inl FileNotFoundError
      end
  end.

(** [f.write(content)] on a handle opened with ['wb']. *)
Definition write (h : path) (content : string) (s : state) : state :=
  match lookup h (fs s) with
  | Some (IFile data _) =>
      with_fs s (store h (IFile (data ++ content) (clock s)) (fs s))
  | _ => s
  end.

Fixpoint remove_first (h : path) (l : list path) : list path :=
  match l with
  | [] => []
  | x :: l' => if path_eqb h x then l' else x :: remove_first h l'
  end.

(** [f.close()], also what leaving a [with] block does. *)
Definition close (h : path) (s : state) : state :=
  with_open_files s (remove_first h (open_files s)).

Section Codec.
(** The locale's text codec: [None] is a [UnicodeDecodeError]. *)
Variable decode : string -> option string.

(** [with open(name, 'r') as f: f.readlines()] *)
Definition read_lines (name : string) (s : state) : exn + list string :=
  match resolve (fs s) name with
  | inl e => inl e
  | inr p =>
      match lookup p (fs s) with
      | None => inl FileNotFoundError
      | Some (IDir _ _) => inl IsADirectoryError
      | Some (IFile data _) =>
          match decode data with
          | None => inl UnicodeDecodeError
          | Some text => inr (readlines (universal_newlines text))
          end
      end
  end.
End Codec.

(** [subprocess.Popen(argv, stdout=h, stderr=STDOUT, preexec_fn=os.setsid)]:
    on success the child has a fresh PID and, by [setsid], leads a process
    group of its own. *)
Definition Popen (args : list string) (h : path) (s : state)
  : exn + (Z * state) :=
  match spawn_fault s with
  | Some e => inl e
  | None =>
      let pid := next_pid s in
      let child := mkProcess pid true args h 0%Q 0 in
      inr (pid, with_procs s (procs s ++ [(pid, child)]) (pid + 1))
  end.

(** [os.getpgid(pid)] *)
Definition getpgid (pid : Z) (s : state) : exn + Z :=
  match find_process pid (procs s) with
  | Some p => inr (pgid p)
  | None => inl ProcessLookupError
  end.

Definition in_group (g : Z) (e : Z * process) : bool := Z.eqb (pgid (snd e)) g.

(** [os.killpg(g, 9)]: fails when the group is empty or none of its members
    may be signalled; otherwise the signalled members are gone. *)
Definition killpg (g : Z) (s : state) : exn + state :=
  let members := filter (in_group g) (procs s) in
  match members with
  | [] => inl ProcessLookupError
  | _ =>
      if existsb (fun e => signalable (snd e)) members then
        inr (with_procs s
               (filter (fun e => negb (in_group g e && signalable (snd e)))
                       (procs s))
               (next_pid s))
      else inl PermissionError
  end.

(** [psutil.Process(pid)] followed by [cpu_percent(interval=1)] and
    [memory_info().rss]: the lookup fails for a PID that is not live; the
    sampling blocks for the interval. *)
Definition probe (pid : Z) (s : state) : exn + (Q * Z * state) :=
  match find_process pid (procs s) with
  | None => inl ProcessLookupError
  | Some p => inr (cpu_percent p, rss p, sleep 1 s)
  end.

End OS.

Import OS.

(* ================================================================== *)
(** ** The handlers of [app.py] *)

Module App.

Definition SCRIPTS_DIR : string := "/home/ubuntu/uploaded_scripts".
Definition LOGS_DIR : string := "/home/ubuntu/script_logs".

(** An entry of [RUNNING_PROCESSES]. *)
Record process_info : Type := mkInfo {
  pid : Z;
  start_time : Z;
  log_file : string
}.

Record world : Type := mkWorld {
  RUNNING_PROCESSES : dict process_info;
  os : OS.state
}.

(** [HTTPException(status_code, detail)]; [cause] is the exception whose text
    the source interpolates after the fixed part of [detail]. *)
Record HTTPException : Type := mkHTTPException {
  status_code : Z;
  detail : string;
  cause : option exn
}.

(** What a handler call ends in: a returned body, a raised [HTTPException],
    or an exception the handler does not catch. *)
Inductive outcome : Type :=
| Return (body : json)
| Raise (e : HTTPException)
| Uncaught (e : exn).

(** [GET /] *)
Definition root (w : world) : outcome * world :=
  (Return
     (JObj [("name", JStr "Code Runner Dashboard");
            ("version", JStr "1.0.0");
            ("description", JStr "منصة تشغيل الأكواد البرمجية بشكل دائم");
            ("endpoints",
             JObj [("upload_script", JStr "POST /upload");
                   ("start_script", JStr "POST /start/{script_name}");
                   ("stop_script", JStr "POST /stop/{script_name}");
                   ("list_scripts", JStr "GET /scripts");
                   ("get_status", JStr "GET /status/{script_name}");
                   ("get_logs", JStr "GET /logs/{script_name}");
                   ("health", JStr "GET /health")])]),
   w).

(** [GET /health] *)
Definition health_check (w : world) : outcome * world :=
  (Return (JObj [("status", JStr "healthy");
                 ("timestamp", JInt (now (os w)));
                 ("running_processes", JInt (len (RUNNING_PROCESSES w)))]),
   w).

(** [POST /upload] *)
Definition upload_script (filename content : string) (w : world)
  : outcome * world :=
  let script_path := path_join SCRIPTS_DIR filename in
  match open_write true script_path (os w) with
  | inl e => (Raise (mkHTTPException 400 "خطأ في الرفع: " (Some e)), w)
  | inr (f, s1) =>
      let s2 := write f content s1 in
      let s3 := close f s2 in
      (Return (JObj [("message", JStr "تم رفع الملف بنجاح");
                     ("filename", JStr filename);
                     ("path", JStr script_path);
                     ("size", JInt (Z.of_nat (String.length content)));
                     ("timestamp", JInt (now s3))]),
       mkWorld (RUNNING_PROCESSES w) s3)
  end.

(** [POST /start/{script_name}] *)
Definition start_script (script_name : string) (w : world)
  : outcome * world :=
  let script_path := path_join SCRIPTS_DIR script_name in
  if negb (path_exists (fs (os w)) script_path) then
    (Raise (mkHTTPException 404 "الملف غير موجود" None), w)
  else if contains script_name (RUNNING_PROCESSES w) then
    match get script_name (RUNNING_PROCESSES w) with
    | None => (Uncaught (KeyError script_name), w)
    | Some info =>
        (Return (JObj [("message", JStr "السكريبت قيد التشغيل بالفعل");
                       ("script_name", JStr script_name);
                       ("pid", JInt (pid info))]),
         w)
    end
  else
    let log_file := path_join LOGS_DIR (script_name ++ ".log")%string in
    match open_write false log_file (os w) with
    | inl e => (Raise (mkHTTPException 500 "خطأ في التشغيل: " (Some e)), w)
    | inr (h, s1) =>
        match Popen ["python3"; script_path] h s1 with
        | inl e =>
            (Raise (mkHTTPException 500 "خطأ في التشغيل: " (Some e)),
             mkWorld (RUNNING_PROCESSES w) s1)
        | inr (p, s2) =>
            let table :=
              setitem script_name (mkInfo p (now s2) log_file)
                      (RUNNING_PROCESSES w) in
            (Return (JObj [("message", JStr "تم تشغيل السكريبت بنجاح");
                           ("script_name", JStr script_name);
                           ("pid", JInt p);
                           ("timestamp", JInt (now s2))]),
             mkWorld table s2)
        end
    end.

(** [POST /stop/{script_name}] *)
Definition stop_script (script_name : string) (w : world)
  : outcome * world :=
  if negb (contains script_name (RUNNING_PROCESSES w)) then
    (Raise (mkHTTPException 404 "السكريبت غير مشغل" None), w)
  else
    match get script_name (RUNNING_PROCESSES w) with
    | None =>
        (Raise (mkHTTPException 500 "خطأ في الإيقاف: "
                                (Some (KeyError script_name))), w)
    | Some process_info =>
        match getpgid (pid process_info) (os w) with
        | inl e => (Raise (mkHTTPException 500 "خطأ في الإيقاف: " (Some e)), w)
        | inr g =>
            match killpg g (os w) with
            | inl e =>
                (Raise (mkHTTPException 500 "خطأ في الإيقاف: " (Some e)), w)
            | inr s1 =>
                let table := delitem script_name (RUNNING_PROCESSES w) in
                (Return (JObj [("message", JStr "تم إيقاف السكريبت");
                               ("script_name", JStr script_name);
                               ("timestamp", JInt (now s1))]),
                 mkWorld table s1)
            end
        end
    end.

(** The body of the loop of [list_scripts]: [scripts] is the list built so
    far. *)
Fixpoint list_scripts_loop (w : world) (filenames : list string)
                           (scripts : list json) : exn + list json :=
  match filenames with
  | [] => inr scripts
  | filename :: rest =>
      if endswith filename ".py" then
        let filepath := path_join SCRIPTS_DIR filename in
        match path_getsize (fs (os w)) filepath with
        | inl e => inl e
        | inr size =>
            match path_getctime (fs (os w)) filepath with
            | inl e => inl e
            | inr created =>
                list_scripts_loop w rest
                  (scripts ++
                   [JObj [("name", JStr filename);
                          ("size", JInt size);
                          ("created", JInt created);
                          ("is_running",
                           JBool (contains filename (RUNNING_PROCESSES w)))]])
            end
        end
      else list_scripts_loop w rest scripts
  end.

(** [GET /scripts] *)
Definition list_scripts (w : world) : outcome * world :=
  match listdir (fs (os w)) SCRIPTS_DIR with
  | inl e => (Uncaught e, w)
  | inr filenames =>
      match list_scripts_loop w filenames [] with
      | inl e => (Uncaught e, w)
      | inr scripts =>
          (Return (JObj [("total", JInt (Z.of_nat (List.length scripts)));
                         ("scripts", JList scripts);
                         ("timestamp", JInt (now (os w)))]),
           w)
      end
  end.

(** [GET /status/{script_name}] *)
Definition get_status (script_name : string) (w : world) : outcome * world :=
  if negb (contains script_name (RUNNING_PROCESSES w)) then
    (Return (JObj [("script_name", JStr script_name);
                   ("status", JStr "stopped");
                   ("timestamp", JInt (now (os w)))]),
     w)
  else
    match get script_name (RUNNING_PROCESSES w) with
    | None => (Uncaught (KeyError script_name), w)
    | Some process_info =>
        match probe (pid process_info) (os w) with
        | inr (cpu, rss_bytes, s1) =>
            (Return (JObj [("script_name", JStr script_name);
                           ("status", JStr "running");
                           ("pid", JInt (pid process_info));
                           ("start_time", JInt (start_time process_info));
                           ("cpu_percent", JNum cpu);
                           ("memory_mb",
                            JNum (inject_Z rss_bytes / 1024 / 1024)%Q);
                           ("timestamp", JInt (now s1))]),
             mkWorld (RUNNING_PROCESSES w) s1)
        | inl _ =>
            (Return (JObj [("script_name", JStr script_name);
                           ("status", JStr "error");
                           ("message", JStr "لا يمكن الوصول للعملية");
                           ("timestamp", JInt (now (os w)))]),
             w)
        end
    end.

Section Logs.
Variable decode : string -> option string.

(** [GET /logs/{script_name}?lines=...] *)
Definition get_logs (script_name : string) (lines : Z) (w : world)
  : outcome * world :=
  let log_file :=
    if contains script_name (RUNNING_PROCESSES w) then
      match get script_name (RUNNING_PROCESSES w) with
      | Some info => inr (log_file info)
      | None => inl (KeyError script_name)
      end
    else inr (path_join LOGS_DIR (script_name ++ ".log")%string) in
  match log_file with
  | inl e => (Uncaught e, w)
  | inr log_file =>
      if negb (path_exists (fs (os w)) log_file) then
        (Return (JObj [("script_name", JStr script_name);
                       ("logs", JStr "لا توجد سجلات بعد");
                       ("timestamp", JInt (now (os w)))]),
         w)
      else
        match read_lines decode log_file (os w) with
        | inl e =>
            (Raise (mkHTTPException 500 "خطأ في قراءة السجلات: " (Some e)),
             w)
        | inr all_lines =>
            let recent_lines := slice_from (- lines) all_lines in
            (Return (JObj [("script_name", JStr script_name);
                           ("logs", JStr (join_empty recent_lines));
                           ("total_lines",
                            JInt (Z.of_nat (List.length all_lines)));
                           ("timestamp", JInt (now (os w)))]),
             w)
        end
  end.
End Logs.

(** The body of the loop of [dashboard]. *)
Fixpoint dashboard_loop (w : world) (filenames : list string)
                        (all_scripts : list json) : list json :=
  match filenames with
  | [] => all_scripts
  | filename :: rest =>
      if endswith filename ".py" then
        dashboard_loop w rest
          (all_scripts ++
           [JObj [("name", JStr filename);
                  ("status",
                   JStr (if contains filename (RUNNING_PROCESSES w)
                         then "running" else "stopped"))]])
      else dashboard_loop w rest all_scripts
  end.

(** [GET /dashboard] *)
Definition dashboard (w : world) : outcome * world :=
  let running_count := len (RUNNING_PROCESSES w) in
  match listdir (fs (os w)) SCRIPTS_DIR with
  | inl e => (Uncaught e, w)
  | inr filenames =>
      let all_scripts := dashboard_loop w filenames [] in
      (Return (JObj [("total_scripts",
                      JInt (Z.of_nat (List.length all_scripts)));
                     ("running_scripts", JInt running_count);
                     ("scripts", JList all_scripts);
                     ("server_time", JInt (now (os w)))]),
       w)
  end.

(** One turn of the loop of [restart_all]: the [try] body is
    [stop_script], [time.sleep(1)], [start_script], [restarted.append];
    whatever is raised inside is swallowed. *)
Definition restart_one (script_name : string) (acc : list string * world)
  : list string * world :=
  let '(restarted, w) := acc in
  match stop_script script_name w with
  | (Return _, w1) =>
      let w2 := mkWorld (RUNNING_PROCESSES w1) (sleep 1 (os w1)) in
      match start_script script_name w2 with
      | (Return _, w3) => (restarted ++ [script_name], w3)
      | (_, w3) => (restarted, w3)
      end
  | (_, w1) => (restarted, w1)
  end.

(** [POST /restart-all] *)
Definition restart_all (w : world) : outcome * world :=
  let '(restarted, w') :=
    fold_left (fun acc script_name => restart_one script_name acc)
              (keys (RUNNING_PROCESSES w)) ([], w) in
  (Return (JObj [("message", JStr "تمت إعادة التشغيل");
                 ("restarted", JList (map JStr restarted));
                 ("timestamp", JInt (now (os w')))]),
   w').

(** *** Requests *)

Inductive request : Type :=
| Health
| Upload (filename content : string)
| Start (script_name : string)
| Stop (script_name : string)
| ListScripts
| Status (script_name : string)
| Logs (script_name : string) (lines : Z)
| Dashboard
| RestartAll.

Definition handle (decode : string -> option string) (r : request) (w : world)
  : outcome * world :=
  match r with
  | Health => health_check w
  | Upload filename content => upload_script filename content w
  | Start n => start_script n w
  | Stop n => stop_script n w
  | ListScripts => list_scripts w
  | Status n => get_status n w
  | Logs n lines => get_logs decode n lines w
  | Dashboard => dashboard w
  | RestartAll => restart_all w
  end.

(** The service serving a sequence of requests, one after the other. *)
Definition serve (decode : string -> option string) (rs : list request)
                 (w : world) : world :=
  fold_left (fun w r => snd (handle decode r w)) rs w.

(** The world at start-up: an empty table, and the two directories made by
    [os.makedirs(..., exist_ok=True)]. *)
Definition boot_fs : filesystem :=
  [([], IDir 4096 0);
   (["home"], IDir 4096 0);
   (["home"; "ubuntu"], IDir 4096 0);
   (["home"; "ubuntu"; "uploaded_scripts"], IDir 4096 0);
   (["home"; "ubuntu"; "script_logs"], IDir 4096 0)].

Definition boot : world :=
  mkWorld [] (mkState boot_fs [] [] 100 None 0).

(** The codec of a locale whose encoding is ASCII. *)
Definition ascii_codec (data : string) : option string :=
  if forallb (fun c => (Ascii.nat_of_ascii c <? 128)%nat)
             (list_ascii_of_string data)
  then Some data else None.

End App.

Import App.

(* ================================================================== *)
(** ** Notions the statements use *)

(** The body [start_script] returns for a script that is already tracked. *)
Definition already_running (script_name : string) (p : Z) : json :=
  JObj [("message", JStr "السكريبت قيد التشغيل بالفعل");
        ("script_name", JStr script_name);
        ("pid", JInt p)].

(** The log path [get_logs] settles on: the recorded one of a tracked
    script, the conventional one otherwise. *)
Definition log_path (script_name : string) (w : world) : string :=
  match get script_name (RUNNING_PROCESSES w) with
  | Some info => log_file info
  | None => path_join LOGS_DIR (script_name ++ ".log")%string
  end.

(** A name a directory entry can have: not empty, not [.] or [..], and
    without a separator. *)
Definition valid_name (c : string) : bool :=
  negb (String.eqb c "") && negb (String.eqb c ".")
  && negb (String.eqb c "..")
  && negb (existsb (Ascii.eqb "/") (list_ascii_of_string c)).

(** The entry [list_scripts] reports for a file name: its name, the size
    and change time of the inode, and whether the table has the name. *)
Definition script_entry (w : world) (filename : string) (i : inode) : json :=
  JObj [("name", JStr filename);
        ("size", JInt (getsize i));
        ("created", JInt (getctime i));
        ("is_running", JBool (contains filename (RUNNING_PROCESSES w)))].

(** [entry] is the report of the entry called [filename] in directory [d]. *)
Definition reported (w : world) (d : path) (filename : string) (entry : json)
  : Prop :=
  exists i, lookup (d ++ [filename]) (fs (os w)) = Some i
            /\ entry = script_entry w filename i.

(** A script name has at most one entry in [RUNNING_PROCESSES]. *)
Definition at_most_one_instance (w : world) : Prop :=
  forall n, (entries_for n (RUNNING_PROCESSES w) <= 1)%nat.

(** The world a successful upload leaves: the file at the resolved place
    holds exactly the content; everything but the file system is as
    before. *)
Definition after_upload (w : world) (p : path) (content : string) : world :=
  mkWorld (RUNNING_PROCESSES w)
    (mkState
       (store p (IFile content (clock (os w)))
          (store p (IFile "" (clock (os w))) (fs (os w))))
       (open_files (os w)) (procs (os w)) (next_pid (os w))
       (spawn_fault (os w)) (clock (os w))).

(** The body of a returned outcome ([JNull] when the call raised). *)
Definition body_of (o : outcome) : json :=
  match o with
  | Return body => body
  | _ => JNull
  end.

(** Every entry of the table records the conventional log path of its
    script name. *)
Definition log_files_canonical (w : world) : Prop :=
  forall n info,
    get n (RUNNING_PROCESSES w) = Some info ->
    log_file info = path_join LOGS_DIR (n ++ ".log")%string.

(** Every tracked script has its artifact where [start_script] looks for
    it. *)
Definition artifacts_in_place (w : world) : Prop :=
  forall n info,
    get n (RUNNING_PROCESSES w) = Some info ->
    path_exists (fs (os w)) (path_join SCRIPTS_DIR n) = true.

(** The entry [dashboard] reports for a file name. *)
Definition dashboard_entry (w : world) (filename : string) : json :=
  JObj [("name", JStr filename);
        ("status",
         JStr (if contains filename (RUNNING_PROCESSES w)
               then "running" else "stopped"))].

(** [small l big]: the elements of [l] are elements of [big], in the order
    they have in [big]. *)
Fixpoint subsequence (l big : list string) : bool :=
  match l, big with
  | [], _ => true
  | _ :: _, [] => false
  | a :: l', b :: big' =>
      if String.eqb a b then subsequence l' big' else subsequence l big'
  end.

(* ================================================================== *)
(** ** Concrete worlds *)

(** [a.py] has been uploaded after start-up. *)
Definition uploaded : world := snd (upload_script "a.py" "print(1)" boot).

(** [a.py] has then been started: it is tracked with PID 100. *)
Definition running : world := snd (start_script "a.py" uploaded).

(** [a.py] is tracked, but its artifact is no longer in the scripts
    directory (removed from outside the service). *)
Definition artifact_gone : world :=
  mkWorld (RUNNING_PROCESSES running) (with_fs (os running) boot_fs).

(** [a.py] is tracked with PID 100, but no such process is left. *)
Definition orphaned : world :=
  mkWorld (RUNNING_PROCESSES running) (with_procs (os running) [] 101).

(** [a.py] is uploaded and not tracked; the interpreter cannot be executed. *)
Definition interpreter_missing : world :=
  mkWorld (RUNNING_PROCESSES uploaded)
          (mkState (fs (os uploaded)) [] [] 100 (Some FileNotFoundError) 0).

(** A log of two lines, [one] and [two], each ended by a line feed. *)
Definition two_lines : string :=
  String.append "one" (String LF (String.append "two" (String LF ""))).

(** A machine on which [a.py] has run and logged [two_lines]. *)
Definition logged : world :=
  mkWorld []
    (mkState
       (boot_fs ++
        [(["home"; "ubuntu"; "uploaded_scripts"; "a.py"], IFile "print(1)" 1);
         (["home"; "ubuntu"; "script_logs"; "a.py.log"], IFile two_lines 5)])
       [] [] 101 None 9).

(** A text file uploaded next to nothing else. *)
Definition with_notes : world := snd (upload_script "notes.txt" "hello" boot).

(** Two uploads, one of them a Python script which is then started. *)
Definition mixed : world :=
  snd (start_script "a.py" (snd (upload_script "a.py" "print(1)" with_notes))).

(** The world after the upload of a file named [../x]. *)
Definition escaped : world := snd (upload_script "../x" "print(1)" boot).

(* ================================================================== *)
(** ** Facts about the Python values *)

Section DictFacts.
Context {V : Type}.
Implicit Types (d : dict V) (k : string) (v : V).

Lemma contains_get k d :
  contains k d = true <-> exists v, get k d = Some v.
Proof.
  unfold contains. destruct (get k d) as [v|].
  - split; [intros _; now exists v | reflexivity].
  - split; [discriminate | intros [v Hv]; discriminate].
Qed.

Lemma not_contains_get k d : contains k d = false <-> get k d = None.
Proof.
  unfold contains. destruct (get k d); split; congruence.
Qed.

Lemma get_setitem_same k v d : get k (setitem k v d) = Some v.
Proof.
  induction d as [|[k' v'] d IH]; simpl.
  - now rewrite String.eqb_refl.
  - destruct (String.eqb k k') eqn:E; simpl.
    + now rewrite String.eqb_refl.
    + now rewrite E.
Qed.

Lemma get_setitem_other k k' v d :
  k <> k' -> get k (setitem k' v d) = get k d.
Proof.
  intros Hne. induction d as [|[k'' v''] d IH]; simpl.
  - destruct (String.eqb_spec k k'); [contradiction | reflexivity].
  - destruct (String.eqb_spec k' k''); simpl.
    + subst k''. destruct (String.eqb_spec k k'); [contradiction | reflexivity].
    + destruct (String.eqb k k''); [reflexivity | exact IH].
Qed.

Lemma get_delitem_same k d : get k (delitem k d) = None.
Proof.
  unfold delitem. induction d as [|[k' v'] d IH]; simpl; [reflexivity|].
  destruct (String.eqb k k') eqn:E; simpl; [exact IH|].
  now rewrite E.
Qed.

Lemma get_delitem_other k k' d :
  k <> k' -> get k (delitem k' d) = get k d.
Proof.
  intros Hne. unfold delitem.
  induction d as [|[k'' v''] d IH]; simpl; [reflexivity|].
  destruct (String.eqb_spec k' k''); simpl.
  - subst k''. destruct (String.eqb_spec k k'); [contradiction | exact IH].
  - destruct (String.eqb k k''); [reflexivity | exact IH].
Qed.

Lemma entries_for_get_none k d : get k d = None -> entries_for k d = 0%nat.
Proof.
  unfold entries_for. induction d as [|[k' v'] d IH]; simpl; [reflexivity|].
  destruct (String.eqb k k'); [discriminate | exact IH].
Qed.

Lemma entries_for_get_some k v d :
  get k d = Some v -> (1 <= entries_for k d)%nat.
Proof.
  unfold entries_for. induction d as [|[k' v'] d IH]; simpl; [discriminate|].
  destruct (String.eqb k k'); simpl; [lia | exact IH].
Qed.

(** Assignment updates a present key where it stands and appends an absent
    one: the number of entries of the key stays, or goes from 0 to 1. *)
Lemma entries_for_setitem_same k v d :
  entries_for k (setitem k v d) = Nat.max 1 (entries_for k d).
Proof.
  unfold entries_for. induction d as [|[k' v'] d IH]; simpl.
  - now rewrite String.eqb_refl.
  - destruct (String.eqb k k') eqn:E; simpl.
    + rewrite String.eqb_refl. simpl. lia.
    + rewrite E. exact IH.
Qed.

Lemma entries_for_setitem_other k k' v d :
  k <> k' -> entries_for k (setitem k' v d) = entries_for k d.
Proof.
  intros Hne. unfold entries_for.
  induction d as [|[k'' v''] d IH]; simpl.
  - destruct (String.eqb_spec k k'); [contradiction | reflexivity].
  - destruct (String.eqb_spec k' k''); simpl.
    + subst k''. destruct (String.eqb_spec k k'); [contradiction | reflexivity].
    + destruct (String.eqb k k''); simpl; [f_equal|]; exact IH.
Qed.

Lemma entries_for_delitem_le k k' d :
  (entries_for k (delitem k' d) <= entries_for k d)%nat.
Proof.
  unfold entries_for, delitem.
  induction d as [|[k'' v''] d IH]; simpl; [lia|].
  destruct (String.eqb k' k''); simpl;
    destruct (String.eqb k k''); simpl;
    first [exact IH | apply le_S; exact IH | apply le_n_S; exact IH].
Qed.
End DictFacts.

Section SliceFacts.
Context {A : Type}.
Implicit Types (l : list A).

(** [l[-0:]] is [l[0:]]: the whole list. *)
Lemma slice_from_neg_zero l : slice_from (- 0) l = l.
Proof.
  unfold slice_from. simpl.
  destruct (Z.ltb_spec (Z.of_nat (List.length l)) 0); [lia | reflexivity].
Qed.

(** For a positive [k], [l[-k:]] is the last [min k (len l)] elements. *)
Lemma slice_from_neg_pos k l :
  0 < k ->
  slice_from (- k) l
  = skipn (List.length l - Nat.min (Z.to_nat k) (List.length l)) l.
Proof.
  intros Hk. unfold slice_from.
  destruct (Z.ltb_spec (- k) 0); [|lia].
  destruct (Z.ltb_spec (- k + Z.of_nat (List.length l)) 0); f_equal; lia.
Qed.

Lemma slice_from_neg_pos_length k l :
  0 < k ->
  List.length (slice_from (- k) l) = Nat.min (Z.to_nat k) (List.length l).
Proof.
  intros Hk. rewrite slice_from_neg_pos by exact Hk.
  rewrite length_skipn. lia.
Qed.

(** For a negative [k], [l[-k:]] drops the first [-k] elements. *)
Lemma slice_from_neg_neg k l :
  k < 0 -> slice_from (- k) l = skipn (Z.to_nat (- k)) l.
Proof.
  intros Hk. unfold slice_from.
  destruct (Z.ltb_spec (- k) 0); [lia|].
  destruct (Z.ltb_spec (Z.of_nat (List.length l)) (- k)); [|reflexivity].
  rewrite !skipn_all2 by lia. reflexivity.
Qed.
End SliceFacts.

(** Reading lines loses nothing: the lines put together are the text. *)
Lemma join_readlines (s : string) : join_empty (readlines s) = s.
Proof.
  unfold join_empty.
  induction s as [|c s IH]; simpl; [reflexivity|].
  destruct (Ascii.eqb c LF); simpl.
  - f_equal. exact IH.
  - destruct (readlines s) as [|l ls]; simpl in *; f_equal; exact IH.
Qed.

(* ================================================================== *)
(** ** Reading logs: [get_logs] *)

(** On a log file that exists and can be read, [get_logs] answers with the
    slice [all_lines[-lines:]] put together, and the number of all lines. *)
Lemma get_logs_readable decode script_name lines w all_lines :
  path_exists (fs (os w)) (log_path script_name w) = true ->
  read_lines decode (log_path script_name w) (os w) = inr all_lines ->
  get_logs decode script_name lines w
  = (Return (JObj [("script_name", JStr script_name);
                   ("logs", JStr (join_empty (slice_from (- lines) all_lines)));
                   ("total_lines", JInt (Z.of_nat (List.length all_lines)));
                   ("timestamp", JInt (now (os w)))]),
     w).
Proof.
  unfold get_logs, log_path, contains.
  destruct (get script_name (RUNNING_PROCESSES w)) as [info|];
    intros Hex Hread; rewrite Hex; simpl; rewrite Hread; reflexivity.
Qed.

(** X12: For [lines >= 1] the answer holds the last [min lines total] lines. *)
Lemma get_logs_positive decode script_name lines w all_lines :
  0 < lines ->
  path_exists (fs (os w)) (log_path script_name w) = true ->
  read_lines decode (log_path script_name w) (os w) = inr all_lines ->
  exists recent_lines,
    get_logs decode script_name lines w
    = (Return (JObj [("script_name", JStr script_name);
                     ("logs", JStr (join_empty recent_lines));
                     ("total_lines", JInt (Z.of_nat (List.length all_lines)));
                     ("timestamp", JInt (now (os w)))]),
       w)
    /\ recent_lines
       = skipn (List.length all_lines
                - Nat.min (Z.to_nat lines) (List.length all_lines)) all_lines
    /\ (Z.of_nat (List.length recent_lines) <= lines)
    /\ (Z.of_nat (List.length all_lines) <= lines -> recent_lines = all_lines).
Proof.
  intros Hk Hex Hread. exists (slice_from (- lines) all_lines).
  split; [now apply get_logs_readable|].
  split; [now apply slice_from_neg_pos|].
  split.
  - rewrite slice_from_neg_pos_length by exact Hk. lia.
  - intros Hle. rewrite slice_from_neg_pos by exact Hk.
    replace (List.length all_lines
             - Nat.min (Z.to_nat lines) (List.length all_lines))%nat
      with 0%nat by lia.
    reflexivity.
Qed.

(** For [lines = 0] the slice is [all_lines[0:]]: the answer holds every
    line of the file. *)
Lemma get_logs_zero decode script_name w all_lines :
  path_exists (fs (os w)) (log_path script_name w) = true ->
  read_lines decode (log_path script_name w) (os w) = inr all_lines ->
  get_logs decode script_name 0 w
  = (Return (JObj [("script_name", JStr script_name);
                   ("logs", JStr (join_empty all_lines));
                   ("total_lines", JInt (Z.of_nat (List.length all_lines)));
                   ("timestamp", JInt (now (os w)))]),
     w).
Proof.
  intros Hex Hread.
  rewrite (get_logs_readable decode script_name 0 w all_lines Hex Hread).
  now rewrite slice_from_neg_zero.
Qed.

(** For a negative [lines] the slice drops the first [-lines] lines. *)
Lemma get_logs_negative decode script_name lines w all_lines :
  lines < 0 ->
  path_exists (fs (os w)) (log_path script_name w) = true ->
  read_lines decode (log_path script_name w) (os w) = inr all_lines ->
  get_logs decode script_name lines w
  = (Return (JObj [("script_name", JStr script_name);
                   ("logs",
                    JStr (join_empty (skipn (Z.to_nat (- lines)) all_lines)));
                   ("total_lines", JInt (Z.of_nat (List.length all_lines)));
                   ("timestamp", JInt (now (os w)))]),
     w).
Proof.
  intros Hk Hex Hread.
  rewrite (get_logs_readable decode script_name lines w all_lines Hex Hread).
  now rewrite slice_from_neg_neg.
Qed.

(** C1, at [lines = 0] on a log of two lines: [get_logs] answers with both
    lines (the whole file) and the total 2, where the claim wants an
    empty text; [all_lines[-0:]] is [all_lines[0:]]. *)
Theorem get_logs_zero_lines_whole_file :
  get_logs ascii_codec "a.py" 0 logged
  = (Return (JObj [("script_name", JStr "a.py");
                   ("logs", JStr two_lines);
                   ("total_lines", JInt 2);
                   ("timestamp", JInt 9)]),
     logged)
  /\ two_lines <> "".
Proof.
  split; [vm_compute; reflexivity | discriminate].
Qed.

(** With a negative [lines] the answer is not bounded by [lines] either:
    [lines = -1] drops the first line and keeps the second. *)
Example get_logs_minus_one :
  fst (get_logs ascii_codec "a.py" (-1) logged)
  = Return (JObj [("script_name", JStr "a.py");
                  ("logs", JStr (String.append "two" (String LF "")));
                  ("total_lines", JInt 2);
                  ("timestamp", JInt 9)]).
Proof. vm_compute. reflexivity. Qed.

(** With [lines = 1] the answer is the last line. *)
Example get_logs_one :
  fst (get_logs ascii_codec "a.py" 1 logged)
  = Return (JObj [("script_name", JStr "a.py");
                  ("logs", JStr (String.append "two" (String LF "")));
                  ("total_lines", JInt 2);
                  ("timestamp", JInt 9)]).
Proof. vm_compute. reflexivity. Qed.

(* ================================================================== *)
(** ** Facts about the file system *)

Lemma path_eqb_spec (p q : path) : reflect (p = q) (path_eqb p q).
Proof.
  revert q. induction p as [|a p IH]; intros [|b q]; simpl;
    try (constructor; congruence).
  destruct (String.eqb_spec a b) as [->|Hne]; simpl.
  - destruct (IH q) as [->|Hne]; constructor; congruence.
  - constructor; congruence.
Qed.

Lemma path_eqb_refl (p : path) : path_eqb p p = true.
Proof. destruct (path_eqb_spec p p); congruence. Qed.

Lemma lookup_store (p q : path) (i : inode) (fs : filesystem) :
  lookup q (store p i fs) = if path_eqb q p then Some i else lookup q fs.
Proof.
  induction fs as [|[r j] fs IH]; simpl.
  - reflexivity.
  - destruct (path_eqb_spec p r) as [->|Hpr]; simpl.
    + destruct (path_eqb q r); reflexivity.
    + destruct (path_eqb_spec q r) as [->|Hqr].
      * destruct (path_eqb_spec r p); [congruence | reflexivity].
      * exact IH.
Qed.

Lemma lookup_store_same (p : path) (i : inode) (fs : filesystem) :
  lookup p (store p i fs) = Some i.
Proof. now rewrite lookup_store, path_eqb_refl. Qed.

(** Two file systems with the same directories resolve names alike. *)
Lemma walk_same_dirs (fs fs' : filesystem) :
  (forall q, is_dir fs' q = is_dir fs q) ->
  forall comps cur p, walk fs cur comps = inr p -> walk fs' cur comps = inr p.
Proof.
  intros Hdir comps. induction comps as [|c rest IH]; intros cur p; simpl.
  - trivial.
  - rewrite Hdir. destruct (is_dir fs cur); simpl; [|discriminate].
    destruct (String.eqb c "" || String.eqb c "."); [apply IH|].
    destruct (String.eqb c ".."); apply IH.
Qed.

(** Putting a regular file where no directory stands leaves the directories
    as they are and keeps every entry present. *)
Lemma is_dir_store_file (fs : filesystem) (p : path) (data : string) (t : Z) :
  is_dir fs p = false ->
  forall q, is_dir (store p (IFile data t) fs) q = is_dir fs q.
Proof.
  intros Hp q. unfold is_dir in *. rewrite lookup_store.
  destruct (path_eqb_spec q p) as [->|_]; [|reflexivity].
  destruct (lookup p fs) as [[| ]|]; congruence.
Qed.

Lemma present_store (fs : filesystem) (p q : path) (i : inode) :
  present fs q = true -> present (store p i fs) q = true.
Proof.
  unfold present. rewrite lookup_store.
  destruct (path_eqb q p); [reflexivity | trivial].
Qed.

(** Opening a file for writing removes nothing a name resolves to. *)
Lemma open_write_keeps_paths truncate name s h s1 other :
  open_write truncate name s = inr (h, s1) ->
  path_exists (fs s) other = true ->
  path_exists (fs s1) other = true.
Proof.
  unfold open_write, path_exists, resolve.
  destruct (walk (fs s) [] (split "/" name)) as [e|p]; [discriminate|].
  assert (Hstore : forall data t, is_dir (fs s) p = false ->
            match walk (fs s) [] (split "/" other) with
            | inl _ => false | inr p0 => present (fs s) p0 end = true ->
            match walk (store p (IFile data t) (fs s)) [] (split "/" other) with
            | inl _ => false
            | inr p0 => present (store p (IFile data t) (fs s)) p0 end = true).
  { intros data t Hnd.
    destruct (walk (fs s) [] (split "/" other)) as [e|p0] eqn:Hw;
      [discriminate|].
    intros Hpres.
    rewrite (walk_same_dirs (fs s) _ (is_dir_store_file _ _ data t Hnd) _ _ _ Hw).
    now apply present_store. }
  destruct (lookup p (fs s)) as [[sz t|data t]|] eqn:Hl; [discriminate| |].
  - assert (Hnd : is_dir (fs s) p = false) by (unfold is_dir; now rewrite Hl).
    destruct truncate; intros [= <- <-]; simpl; [|trivial].
    now apply Hstore.
  - assert (Hnd : is_dir (fs s) p = false) by (unfold is_dir; now rewrite Hl).
    destruct (is_dir (fs s) (removelast p)); [|discriminate].
    intros [= <- <-]; simpl. now apply Hstore.
Qed.

Lemma Popen_keeps_fs args h s p s1 :
  Popen args h s = inr (p, s1) -> fs s1 = fs s.
Proof.
  unfold Popen. destruct (spawn_fault s); [discriminate|].
  now intros [= <- <-].
Qed.

(* ================================================================== *)
(** ** Starting: [start_script] *)

(** A tracked script whose artifact is in place: the call returns the
    recorded PID and leaves the world (table, files, processes) as it was. *)
Lemma start_script_tracked script_name w info :
  path_exists (fs (os w)) (path_join SCRIPTS_DIR script_name) = true ->
  get script_name (RUNNING_PROCESSES w) = Some info ->
  start_script script_name w
  = (Return (already_running script_name (pid info)), w).
Proof.
  intros Hex Hget. unfold start_script, contains.
  rewrite Hex, Hget. reflexivity.
Qed.

(** Whenever [start_script] returns, the script is tracked afterwards under
    the returned PID and its artifact is still in place. *)
Lemma start_script_returns script_name w body w1 :
  start_script script_name w = (Return body, w1) ->
  exists info,
    get script_name (RUNNING_PROCESSES w1) = Some info
    /\ path_exists (fs (os w1)) (path_join SCRIPTS_DIR script_name) = true
    /\ field "script_name" body = Some (JStr script_name)
    /\ field "pid" body = Some (JInt (pid info)).
Proof.
  unfold start_script, contains.
  destruct (path_exists (fs (os w)) (path_join SCRIPTS_DIR script_name))
    eqn:Hex; simpl; [|discriminate].
  destruct (get script_name (RUNNING_PROCESSES w)) as [info|] eqn:Hget.
  - intros [= <- <-]. exists info. repeat split; assumption || reflexivity.
  - destruct (open_write false _ (os w)) as [e|[h s1]] eqn:Hopen;
      [discriminate|].
    destruct (Popen _ h s1) as [e|[p s2]] eqn:Hspawn; [discriminate|].
    intros [= <- <-]. simpl.
    eexists. rewrite get_setitem_same. split; [reflexivity|].
    split; [|split; reflexivity].
    rewrite (Popen_keeps_fs _ _ _ _ _ Hspawn).
    eapply open_write_keeps_paths; eassumption.
Qed.

(** C2, as stated, fails where the tracked script's artifact is missing:
    the existence test comes first and [start_script] raises 404 instead of
    returning the existing instance. *)
Lemma start_script_tracked_artifact_gone :
  get "a.py" (RUNNING_PROCESSES artifact_gone)
  = Some (mkInfo 100 0 "/home/ubuntu/script_logs/a.py.log")
  /\ start_script "a.py" artifact_gone
     = (Raise (mkHTTPException 404 "الملف غير موجود" None), artifact_gone).
Proof. split; vm_compute; reflexivity. Qed.

(** C2 (amended): for a script name whose artifact exists, a [start_script]
    on a tracked name returns the recorded instance (same name, same PID) and
    leaves the whole world unchanged: no process is spawned and the table is
    as it was; and whenever [start_script] returns, calling it again at once
    returns the same name and PID and changes nothing. *)
Theorem start_script_idempotent script_name w :
  path_exists (fs (os w)) (path_join SCRIPTS_DIR script_name) = true ->
  (forall info,
      get script_name (RUNNING_PROCESSES w) = Some info ->
      start_script script_name w
      = (Return (already_running script_name (pid info)), w))
  /\ (forall body w1,
         start_script script_name w = (Return body, w1) ->
         exists p,
           field "script_name" body = Some (JStr script_name)
           /\ field "pid" body = Some (JInt p)
           /\ start_script script_name w1
              = (Return (already_running script_name p), w1)).
Proof.
  intros Hex. split.
  - intros info Hget. now apply start_script_tracked.
  - intros body w1 Hstart.
    destruct (start_script_returns _ _ _ _ Hstart)
      as (info & Hget & Hex1 & Hname & Hpid).
    exists (pid info). repeat split; try assumption.
    now apply start_script_tracked.
Qed.

Lemma start_script_idempotent_witness :
  start_script "a.py" running = (Return (already_running "a.py" 100), running)
  /\ exists p,
       field "pid" (already_running "a.py" 100) = Some (JInt p)
       /\ start_script "a.py" running
          = (Return (already_running "a.py" p), running).
Proof.
  assert (Hex : path_exists (fs (os running)) (path_join SCRIPTS_DIR "a.py")
                = true) by (vm_compute; reflexivity).
  destruct (start_script_idempotent "a.py" running Hex) as [Htracked Htwice].
  assert (H1 : start_script "a.py" running
               = (Return (already_running "a.py" 100), running)).
  { apply (Htracked (mkInfo 100 0 "/home/ubuntu/script_logs/a.py.log")).
    vm_compute. reflexivity. }
  split; [exact H1|].
  destruct (Htwice _ _ H1) as (p & _ & Hp & Hagain).
  exists p. split; assumption.
Defined.

(** C7: when the artifact of [script_name] does not exist, [start_script]
    raises the 404 "not found" error and the world, in particular the
    instance table, is unchanged. *)
Theorem start_script_missing_artifact script_name w :
  path_exists (fs (os w)) (path_join SCRIPTS_DIR script_name) = false ->
  start_script script_name w
  = (Raise (mkHTTPException 404 "الملف غير موجود" None), w).
Proof.
  intros Hex. unfold start_script. rewrite Hex. reflexivity.
Qed.

Lemma start_script_missing_artifact_witness :
  start_script "missing.py" boot
  = (Raise (mkHTTPException 404 "الملف غير موجود" None), boot)
  /\ len (RUNNING_PROCESSES (snd (start_script "missing.py" boot))) = 0.
Proof.
  assert (H : start_script "missing.py" boot
              = (Raise (mkHTTPException 404 "الملف غير موجود" None), boot)).
  { apply start_script_missing_artifact. vm_compute. reflexivity. }
  split; [exact H | rewrite H; reflexivity].
Defined.

(* ================================================================== *)
(** ** Stopping: [stop_script] *)

(** C8: for a script name that is not in the instance table, [stop_script]
    raises the 404 "not running" error and the world, in particular the
    table, is unchanged. *)
Theorem stop_script_untracked script_name w :
  get script_name (RUNNING_PROCESSES w) = None ->
  stop_script script_name w
  = (Raise (mkHTTPException 404 "السكريبت غير مشغل" None), w).
Proof.
  intros Hget. unfold stop_script, contains. rewrite Hget. reflexivity.
Qed.

Lemma stop_script_untracked_witness :
  stop_script "a.py" uploaded
  = (Raise (mkHTTPException 404 "السكريبت غير مشغل" None), uploaded).
Proof.
  apply stop_script_untracked. vm_compute. reflexivity.
Defined.

(** C3: for a tracked script, [stop_script] removes the entry exactly when
    the kill signal reaches the process group: if [getpgid] and [killpg]
    both succeed the call returns with the entry deleted (no wait, the other
    entries untouched); if either raises, the call raises the 500 "stop
    failure" error carrying that exception and the world is unchanged, so
    the entry is still there. *)
Theorem stop_script_removes_iff_signalled script_name w info :
  get script_name (RUNNING_PROCESSES w) = Some info ->
  (forall g s1,
      getpgid (pid info) (os w) = inr g ->
      killpg g (os w) = inr s1 ->
      stop_script script_name w
      = (Return (JObj [("message", JStr "تم إيقاف السكريبت");
                       ("script_name", JStr script_name);
                       ("timestamp", JInt (now s1))]),
         mkWorld (delitem script_name (RUNNING_PROCESSES w)) s1)
      /\ get script_name (delitem script_name (RUNNING_PROCESSES w)) = None
      /\ forall other, other <> script_name ->
           get other (delitem script_name (RUNNING_PROCESSES w))
           = get other (RUNNING_PROCESSES w))
  /\ (forall e,
         (getpgid (pid info) (os w) = inl e
          \/ exists g, getpgid (pid info) (os w) = inr g
                       /\ killpg g (os w) = inl e) ->
         stop_script script_name w
         = (Raise (mkHTTPException 500 "خطأ في الإيقاف: " (Some e)), w))
  /\ (get script_name (RUNNING_PROCESSES (snd (stop_script script_name w)))
      = None
      <-> exists g s1, getpgid (pid info) (os w) = inr g
                       /\ killpg g (os w) = inr s1).
Proof.
  intros Hget.
  assert (Hok : forall g s1,
             getpgid (pid info) (os w) = inr g ->
             killpg g (os w) = inr s1 ->
             stop_script script_name w
             = (Return (JObj [("message", JStr "تم إيقاف السكريبت");
                              ("script_name", JStr script_name);
                              ("timestamp", JInt (now s1))]),
                mkWorld (delitem script_name (RUNNING_PROCESSES w)) s1)).
  { intros g s1 Hg Hk. unfold stop_script, contains.
    rewrite Hget. simpl. rewrite Hg, Hk. reflexivity. }
  assert (Hfail : forall e,
             (getpgid (pid info) (os w) = inl e
              \/ exists g, getpgid (pid info) (os w) = inr g
                           /\ killpg g (os w) = inl e) ->
             stop_script script_name w
             = (Raise (mkHTTPException 500 "خطأ في الإيقاف: " (Some e)), w)).
  { intros e [Hg | (g & Hg & Hk)]; unfold stop_script, contains;
      rewrite Hget; simpl; rewrite Hg; [|rewrite Hk]; reflexivity. }
  split; [|split].
  - intros g s1 Hg Hk. split; [now apply (Hok g)|].
    split; [apply get_delitem_same|].
    intros other Hne. now apply get_delitem_other.
  - exact Hfail.
  - destruct (getpgid (pid info) (os w)) as [e|g] eqn:Hg.
    + rewrite (Hfail e) by now left. simpl. rewrite Hget.
      split; [discriminate | intros (g & s1 & Habs & _); discriminate].
    + destruct (killpg g (os w)) as [e|s1] eqn:Hk.
      * rewrite (Hfail e) by (right; now exists g). simpl. rewrite Hget.
        split; [discriminate|].
        intros (g' & s1 & [= <-] & Hk'). congruence.
      * rewrite (Hok g s1) by (assumption || reflexivity). simpl.
        split; [intros _; now exists g, s1 | intros _; apply get_delitem_same].
Qed.

Lemma stop_script_removes_iff_signalled_witness :
  (exists body w1,
      stop_script "a.py" running = (Return body, w1)
      /\ get "a.py" (RUNNING_PROCESSES w1) = None)
  /\ stop_script "a.py" orphaned
     = (Raise (mkHTTPException 500 "خطأ في الإيقاف: "
                               (Some ProcessLookupError)), orphaned).
Proof.
  split.
  - assert (Hget : get "a.py" (RUNNING_PROCESSES running)
                   = Some (mkInfo 100 0 "/home/ubuntu/script_logs/a.py.log"))
      by (vm_compute; reflexivity).
    destruct (stop_script_removes_iff_signalled "a.py" running _ Hget)
      as (Hok & _ & _).
    destruct (killpg 100 (os running)) as [e|s1] eqn:Hk;
      [vm_compute in Hk; discriminate|].
    destruct (Hok 100 s1) as (Hstop & Hnone & _);
      [vm_compute; reflexivity | exact Hk |].
    eexists _, _. split; [exact Hstop | exact Hnone].
  - assert (Hget : get "a.py" (RUNNING_PROCESSES orphaned)
                   = Some (mkInfo 100 0 "/home/ubuntu/script_logs/a.py.log"))
      by (vm_compute; reflexivity).
    destruct (stop_script_removes_iff_signalled "a.py" orphaned _ Hget)
      as (_ & Hfail & _).
    apply Hfail. left. vm_compute. reflexivity.
Defined.

(* ================================================================== *)
(** ** Spawn failure in [start_script] *)

(** When the log file opens and [Popen] raises, [start_script] raises the
    500 error carrying the exception; the table is as before; the handle
    [open] returned was pushed on the open files and nothing closes it. *)
Lemma start_script_spawn_failure script_name w h s1 e :
  path_exists (fs (os w)) (path_join SCRIPTS_DIR script_name) = true ->
  get script_name (RUNNING_PROCESSES w) = None ->
  open_write false (path_join LOGS_DIR (script_name ++ ".log")%string) (os w)
  = inr (h, s1) ->
  Popen ["python3"; path_join SCRIPTS_DIR script_name] h s1 = inl e ->
  start_script script_name w
  = (Raise (mkHTTPException 500 "خطأ في التشغيل: " (Some e)),
     mkWorld (RUNNING_PROCESSES w) s1)
  /\ open_files s1 = h :: open_files (os w).
Proof.
  intros Hex Hget Hopen Hspawn. unfold start_script, contains.
  rewrite Hex, Hget. simpl. rewrite Hopen, Hspawn. split; [reflexivity|].
  revert Hopen. unfold open_write.
  destruct (resolve _ _) as [e'|p]; [discriminate|].
  destruct (lookup p (fs (os w))) as [[? ?|? ?]|]; [discriminate| |].
  - now intros [= <- <-].
  - destruct (is_dir _ _); [now intros [= <- <-] | discriminate].
Qed.

(** C4, where [Popen] fails on an uploaded script: [start_script] raises the
    500 "spawn failure" error, and the log file it opened is still among the
    open files afterwards (none was open before): the failure path has no
    [close]. *)
Theorem start_script_spawn_failure_leaks_log_handle :
  open_files (os interpreter_missing) = []
  /\ fst (start_script "a.py" interpreter_missing)
     = Raise (mkHTTPException 500 "خطأ في التشغيل: " (Some FileNotFoundError))
  /\ open_files (os (snd (start_script "a.py" interpreter_missing)))
     = [["home"; "ubuntu"; "script_logs"; "a.py.log"]]
  /\ RUNNING_PROCESSES (snd (start_script "a.py" interpreter_missing)) = [].
Proof. repeat split; vm_compute; reflexivity. Qed.

(** By contrast [upload_script], which opens its file in a [with] block,
    leaves the open files as they were. *)
Lemma upload_script_closes_handle filename content w :
  open_files (os (snd (upload_script filename content w)))
  = open_files (os w).
Proof.
  unfold upload_script, open_write.
  destruct (resolve _ _) as [e|p]; [reflexivity|].
  assert (Hclose : forall s f,
             open_files (close p (write p content
                (with_open_files (with_fs s f) (p :: open_files s))))
             = open_files s).
  { intros s f. unfold close, write; simpl.
    destruct (lookup p f) as [[? ?|? ?]|]; simpl;
      now rewrite path_eqb_refl. }
  destruct (lookup p (fs (os w))) as [[? ?|? ?]|]; simpl;
    [reflexivity | apply Hclose |].
  destruct (is_dir _ _); simpl; [apply Hclose | reflexivity].
Qed.

(* ================================================================== *)
(** ** Status: [get_status] *)

(** C9: for a tracked script whose process cannot be looked up,
    [get_status] returns the status [error] with its message and leaves the
    world unchanged: the stale entry stays in the table as it was. *)
Theorem get_status_probe_failure script_name w info e :
  get script_name (RUNNING_PROCESSES w) = Some info ->
  probe (pid info) (os w) = inl e ->
  get_status script_name w
  = (Return (JObj [("script_name", JStr script_name);
                   ("status", JStr "error");
                   ("message", JStr "لا يمكن الوصول للعملية");
                   ("timestamp", JInt (now (os w)))]),
     w)
  /\ RUNNING_PROCESSES (snd (get_status script_name w)) = RUNNING_PROCESSES w
  /\ get script_name (RUNNING_PROCESSES (snd (get_status script_name w)))
     = Some info.
Proof.
  intros Hget Hprobe.
  assert (H : get_status script_name w
              = (Return (JObj [("script_name", JStr script_name);
                               ("status", JStr "error");
                               ("message", JStr "لا يمكن الوصول للعملية");
                               ("timestamp", JInt (now (os w)))]),
                 w)).
  { unfold get_status, contains. rewrite Hget. simpl. rewrite Hprobe.
    reflexivity. }
  rewrite H. simpl. split; [reflexivity | split; [reflexivity | exact Hget]].
Qed.

Lemma get_status_probe_failure_witness :
  get_status "a.py" orphaned
  = (Return (JObj [("script_name", JStr "a.py");
                   ("status", JStr "error");
                   ("message", JStr "لا يمكن الوصول للعملية");
                   ("timestamp", JInt 0)]),
     orphaned)
  /\ get "a.py" (RUNNING_PROCESSES (snd (get_status "a.py" orphaned)))
     = Some (mkInfo 100 0 "/home/ubuntu/script_logs/a.py.log").
Proof.
  destruct (get_status_probe_failure "a.py" orphaned
              (mkInfo 100 0 "/home/ubuntu/script_logs/a.py.log")
              ProcessLookupError) as (H1 & _ & H3);
    [vm_compute; reflexivity | vm_compute; reflexivity |].
  split; [exact H1 | exact H3].
Defined.

(** A tracked script whose process answers is reported [running], and the
    table is unchanged as well. *)
Lemma get_status_keeps_table script_name w :
  RUNNING_PROCESSES (snd (get_status script_name w)) = RUNNING_PROCESSES w.
Proof.
  unfold get_status.
  destruct (contains script_name (RUNNING_PROCESSES w)); simpl;
    [|reflexivity].
  destruct (get script_name (RUNNING_PROCESSES w)); [|reflexivity].
  destruct (probe _ _) as [e|[[cpu r] s1]]; reflexivity.
Qed.

(* ================================================================== *)
(** ** Listing: [list_scripts] *)

Lemma split_not_nil sep s : split sep s <> [].
Proof.
  destruct s as [|c s]; simpl; [discriminate|].
  destruct (Ascii.eqb c sep); [discriminate|].
  destruct (split sep s); discriminate.
Qed.

Lemma split_app_sep sep a b :
  split sep (a ++ String sep b)%string = split sep a ++ split sep b.
Proof.
  induction a as [|x a IH]; simpl.
  - now rewrite Ascii.eqb_refl.
  - destruct (Ascii.eqb x sep); [now rewrite IH|].
    rewrite IH. pose proof (split_not_nil sep a) as Hne.
    destruct (split sep a); [contradiction | reflexivity].
Qed.

Lemma split_no_sep sep c :
  existsb (Ascii.eqb sep) (list_ascii_of_string c) = false ->
  split sep c = [c].
Proof.
  induction c as [|x c IH]; simpl; [reflexivity|].
  rewrite Ascii.eqb_sym. destruct (Ascii.eqb x sep); simpl; [discriminate|].
  intros H. now rewrite IH.
Qed.

Lemma walk_app fs cur l1 l2 :
  walk fs cur (l1 ++ l2)
  = match walk fs cur l1 with
    | inl e => inl e
    | inr c => walk fs c l2
    end.
Proof.
  revert cur. induction l1 as [|c l1 IH]; intros cur; simpl; [reflexivity|].
  destruct (is_dir fs cur); simpl; [|reflexivity].
  destruct (String.eqb c "" || String.eqb c "."); [apply IH|].
  destruct (String.eqb c ".."); apply IH.
Qed.

Lemma valid_name_not_absolute c : valid_name c = true -> startswith c "/" = false.
Proof.
  unfold valid_name. destruct c as [|x c]; [reflexivity|].
  intros H. apply andb_true_iff in H as [_ H]. apply negb_true_iff in H.
  cbn [list_ascii_of_string existsb] in H.
  apply orb_false_iff in H as [H _].
  cbn [startswith]. now rewrite H.
Qed.

(** A valid entry name below a directory: the joined name resolves to the
    entry of that name in the directory. *)
Lemma resolve_join fs dir d c :
  startswith dir "/" = true -> endswith dir "/" = false ->
  resolve fs dir = inr d -> is_dir fs d = true -> valid_name c = true ->
  resolve fs (path_join dir c) = inr (d ++ [c]).
Proof.
  intros Habs Hend Hres Hdir Hc. unfold path_join.
  rewrite (valid_name_not_absolute c Hc), Hend.
  destruct (String.eqb_spec dir ""); [subst dir; discriminate|]. simpl.
  unfold resolve in *. change ("/" ++ c)%string with (String "/" c).
  rewrite split_app_sep, walk_app, Hres.
  unfold valid_name in Hc.
  rewrite !andb_true_iff, !negb_true_iff in Hc.
  destruct Hc as (((He & Hdot) & Hdd) & Hsep).
  rewrite (split_no_sep _ _ Hsep). simpl.
  now rewrite Hdir, He, Hdot, Hdd.
Qed.

Lemma children_lookup d fs c :
  In c (children d fs) -> exists i, lookup (d ++ [c]) fs = Some i.
Proof.
  induction fs as [|[q j] fs IH]; simpl; [contradiction|].
  intros Hin.
  destruct (path_eqb_spec (d ++ [c]) q) as [_|Hne]; [now exists j|].
  destruct q as [|a q]; [now apply IH|].
  destruct (path_eqb_spec (removelast (a :: q)) d) as [Hd|_];
    [|now apply IH].
  destruct Hin as [Hlast|Hin]; [|now apply IH].
  exfalso. apply Hne. subst d c.
  symmetry. apply app_removelast_last. discriminate.
Qed.

Lemma list_scripts_loop_spec w d filenames :
  resolve (fs (os w)) SCRIPTS_DIR = inr d ->
  is_dir (fs (os w)) d = true ->
  Forall (fun c => valid_name c = true) filenames ->
  (forall c, In c filenames -> In c (children d (fs (os w)))) ->
  forall scripts,
  exists more,
    list_scripts_loop w filenames scripts = inr (scripts ++ more)
    /\ Forall2 (reported w d)
               (filter (fun f => endswith f ".py") filenames) more.
Proof.
  intros Hres Hdir Hvalid. induction Hvalid as [|c rest Hc Hrest IH];
    intros Hin scripts; simpl.
  - exists []. rewrite app_nil_r. split; [reflexivity | constructor].
  - assert (Hin' : forall c0, In c0 rest -> In c0 (children d (fs (os w))))
      by (intros c0 H0; apply Hin; now right).
    destruct (endswith c ".py").
    + destruct (children_lookup d (fs (os w)) c) as [i Hi];
        [apply Hin; now left|].
      unfold path_getsize, path_getctime, stat.
      rewrite (resolve_join (fs (os w)) SCRIPTS_DIR d c)
        by (assumption || reflexivity).
      rewrite Hi.
      destruct (IH Hin' (scripts ++ [script_entry w c i])) as (more & Hloop & Hrep).
      exists (script_entry w c i :: more). split.
      * unfold script_entry in *. rewrite Hloop, <- app_assoc. reflexivity.
      * constructor; [now exists i | exact Hrep].
    + destruct (IH Hin' scripts) as (more & Hloop & Hrep).
      exists more. split; assumption.
Qed.

(** C5, as stated, fails on an artifact whose name does not end in [.py]:
    the uploaded [notes.txt] is in the scripts directory and [list_scripts]
    reports no entry at all. *)
Lemma list_scripts_skips_notes :
  fst (upload_script "notes.txt" "hello" boot)
  = Return (JObj [("message", JStr "تم رفع الملف بنجاح");
                  ("filename", JStr "notes.txt");
                  ("path", JStr "/home/ubuntu/uploaded_scripts/notes.txt");
                  ("size", JInt 5);
                  ("timestamp", JInt 0)])
  /\ listdir (fs (os with_notes)) SCRIPTS_DIR = inr ["notes.txt"]
  /\ list_scripts with_notes
     = (Return (JObj [("total", JInt 0);
                      ("scripts", JList []);
                      ("timestamp", JInt 0)]),
        with_notes).
Proof. repeat split; vm_compute; reflexivity. Qed.

(** C5 (amended): where the scripts directory exists (with entries of valid
    names), [list_scripts] returns, changes nothing, and reports exactly the
    entries of the directory whose name ends in [.py], in directory order;
    each report gives the entry's name, size, [getctime] time and a running
    flag that is the membership of the name in the instance table; [total]
    is the number of reports. *)
Theorem list_scripts_reports_py_entries w d :
  resolve (fs (os w)) SCRIPTS_DIR = inr d ->
  is_dir (fs (os w)) d = true ->
  Forall (fun c => valid_name c = true) (children d (fs (os w))) ->
  exists scripts,
    list_scripts w
    = (Return (JObj [("total", JInt (Z.of_nat (List.length scripts)));
                     ("scripts", JList scripts);
                     ("timestamp", JInt (now (os w)))]),
       w)
    /\ Forall2 (reported w d)
         (filter (fun f => endswith f ".py") (children d (fs (os w))))
         scripts.
Proof.
  intros Hres Hdir Hvalid.
  destruct (list_scripts_loop_spec w d (children d (fs (os w)))
              Hres Hdir Hvalid (fun c H => H) [])
    as (scripts & Hloop & Hrep).
  exists scripts. split; [|exact Hrep].
  unfold list_scripts, listdir. rewrite Hres, Hdir, Hloop. reflexivity.
Qed.

Lemma list_scripts_reports_py_entries_witness :
  exists scripts,
    list_scripts mixed
    = (Return (JObj [("total", JInt (Z.of_nat (List.length scripts)));
                     ("scripts", JList scripts);
                     ("timestamp", JInt 0)]),
       mixed)
    /\ Forall2 (reported mixed ["home"; "ubuntu"; "uploaded_scripts"])
               ["a.py"] scripts.
Proof.
  apply (list_scripts_reports_py_entries mixed
           ["home"; "ubuntu"; "uploaded_scripts"]).
  - vm_compute. reflexivity.
  - vm_compute. reflexivity.
  - vm_compute. repeat constructor.
Defined.

(* ================================================================== *)
(** ** The table invariant *)

Section UniqueKeys.
Context {V : Type}.
Implicit Types (d : dict V).

Lemma setitem_unique k v d :
  (forall n, (entries_for n d <= 1)%nat) ->
  forall n, (entries_for n (setitem k v d) <= 1)%nat.
Proof.
  intros H n. destruct (String.eqb_spec n k) as [->|Hne].
  - rewrite entries_for_setitem_same. specialize (H k). lia.
  - rewrite entries_for_setitem_other by exact Hne. apply H.
Qed.

Lemma delitem_unique k d :
  (forall n, (entries_for n d <= 1)%nat) ->
  forall n, (entries_for n (delitem k d) <= 1)%nat.
Proof.
  intros H n. eapply Nat.le_trans; [apply entries_for_delitem_le | apply H].
Qed.
End UniqueKeys.

Lemma upload_script_keeps_table filename content w :
  RUNNING_PROCESSES (snd (upload_script filename content w))
  = RUNNING_PROCESSES w.
Proof.
  unfold upload_script.
  destruct (open_write true _ (os w)) as [e|[f s1]]; reflexivity.
Qed.

Lemma list_scripts_keeps_world w : snd (list_scripts w) = w.
Proof.
  unfold list_scripts. destruct (listdir _ _); [reflexivity|].
  destruct (list_scripts_loop _ _ _); reflexivity.
Qed.

Lemma dashboard_keeps_world w : snd (dashboard w) = w.
Proof. unfold dashboard. destruct (listdir _ _); reflexivity. Qed.

Lemma get_logs_keeps_world decode script_name lines w :
  snd (get_logs decode script_name lines w) = w.
Proof.
  unfold get_logs.
  destruct (contains script_name (RUNNING_PROCESSES w)).
  - destruct (get script_name (RUNNING_PROCESSES w)); [|reflexivity].
    destruct (negb _); [reflexivity|].
    destruct (read_lines _ _ _); reflexivity.
  - destruct (negb _); [reflexivity|].
    destruct (read_lines _ _ _); reflexivity.
Qed.

Lemma start_script_keeps_unique script_name w :
  at_most_one_instance w ->
  at_most_one_instance (snd (start_script script_name w)).
Proof.
  intros Hw. unfold start_script.
  destruct (negb _); [exact Hw|].
  destruct (contains script_name (RUNNING_PROCESSES w)).
  - destruct (get script_name (RUNNING_PROCESSES w)); exact Hw.
  - destruct (open_write false _ (os w)) as [e|[h s1]]; [exact Hw|].
    destruct (Popen _ h s1) as [e|[p s2]]; [exact Hw|].
    unfold at_most_one_instance. simpl. now apply setitem_unique.
Qed.

Lemma stop_script_keeps_unique script_name w :
  at_most_one_instance w ->
  at_most_one_instance (snd (stop_script script_name w)).
Proof.
  intros Hw. unfold stop_script.
  destruct (negb _); [exact Hw|].
  destruct (get script_name (RUNNING_PROCESSES w)) as [info|]; [|exact Hw].
  destruct (getpgid _ _) as [e|g]; [exact Hw|].
  destruct (killpg g (os w)) as [e|s1]; [exact Hw|].
  unfold at_most_one_instance. simpl. now apply delitem_unique.
Qed.

Lemma restart_one_keeps_unique script_name restarted w :
  at_most_one_instance w ->
  at_most_one_instance (snd (restart_one script_name (restarted, w))).
Proof.
  intros Hw. unfold restart_one.
  pose proof (stop_script_keeps_unique script_name w Hw) as Hstop.
  destruct (stop_script script_name w) as [[body|e|e] w1]; simpl in Hstop;
    try exact Hstop.
  set (w2 := mkWorld (RUNNING_PROCESSES w1) (sleep 1 (os w1))).
  assert (Hw2 : at_most_one_instance w2) by exact Hstop.
  pose proof (start_script_keeps_unique script_name w2 Hw2) as Hstart.
  destruct (start_script script_name w2) as [[body'|e|e] w3]; exact Hstart.
Qed.

Lemma restart_loop_keeps_unique names :
  forall restarted w,
    at_most_one_instance w ->
    at_most_one_instance
      (snd (fold_left (fun acc script_name => restart_one script_name acc)
                      names (restarted, w))).
Proof.
  induction names as [|n names IH]; intros restarted w Hw;
    cbn [fold_left]; [exact Hw|].
  pose proof (restart_one_keeps_unique n restarted w Hw) as H1.
  destruct (restart_one n (restarted, w)) as [restarted' w'].
  now apply IH.
Qed.

Lemma restart_all_keeps_unique w :
  at_most_one_instance w -> at_most_one_instance (snd (restart_all w)).
Proof.
  intros Hw. unfold restart_all.
  pose proof (restart_loop_keeps_unique (keys (RUNNING_PROCESSES w)) [] w Hw)
    as H.
  destruct (fold_left _ _ _) as [restarted w']. exact H.
Qed.

Lemma handle_keeps_unique decode r w :
  at_most_one_instance w -> at_most_one_instance (snd (handle decode r w)).
Proof.
  intros Hw. destruct r; simpl.
  - exact Hw.
  - unfold at_most_one_instance. now rewrite upload_script_keeps_table.
  - now apply start_script_keeps_unique.
  - now apply stop_script_keeps_unique.
  - now rewrite list_scripts_keeps_world.
  - unfold at_most_one_instance. now rewrite get_status_keeps_table.
  - now rewrite get_logs_keeps_world.
  - now rewrite dashboard_keeps_world.
  - now apply restart_all_keeps_unique.
Qed.

Lemma boot_unique : at_most_one_instance boot.
Proof. intros n. apply Nat.le_0_l. Qed.

(** C6: every operation (start, stop, status, restart-all, and the other
    requests) preserves that a script name has at most one entry in the
    instance table; hence the table has at most one entry per name after
    any sequence of requests served from a world that has the property,
    and in particular a [start_script] on a tracked name adds no second
    entry. *)
Theorem at_most_one_instance_invariant decode w :
  at_most_one_instance w ->
  (forall script_name,
      at_most_one_instance (snd (start_script script_name w))
      /\ at_most_one_instance (snd (stop_script script_name w))
      /\ at_most_one_instance (snd (get_status script_name w)))
  /\ at_most_one_instance (snd (restart_all w))
  /\ (forall rs, at_most_one_instance (serve decode rs w))
  /\ (forall script_name info,
         get script_name (RUNNING_PROCESSES w) = Some info ->
         entries_for script_name
           (RUNNING_PROCESSES (snd (start_script script_name w))) = 1%nat).
Proof.
  intros Hw. split; [|split; [|split]].
  - intros n. split; [|split].
    + now apply start_script_keeps_unique.
    + now apply stop_script_keeps_unique.
    + unfold at_most_one_instance. now rewrite get_status_keeps_table.
  - now apply restart_all_keeps_unique.
  - intros rs. revert w Hw. unfold serve.
    induction rs as [|r rs IH]; intros w Hw; simpl; [exact Hw|].
    apply IH. now apply handle_keeps_unique.
  - intros n info Hget.
    assert (Hsame : RUNNING_PROCESSES (snd (start_script n w))
                    = RUNNING_PROCESSES w).
    { unfold start_script, contains. rewrite Hget.
      destruct (negb _); reflexivity. }
    rewrite Hsame. pose proof (entries_for_get_some n info _ Hget).
    specialize (Hw n). lia.
Qed.

Lemma at_most_one_instance_invariant_witness :
  at_most_one_instance
    (serve ascii_codec
       [Upload "a.py" "print(1)"; Start "a.py"; Start "a.py"; Status "a.py";
        RestartAll; Start "a.py"; Stop "a.py"; Start "a.py"]
       boot).
Proof.
  exact (proj1 (proj2 (proj2
           (at_most_one_instance_invariant ascii_codec boot boot_unique))) _).
Defined.

(* ================================================================== *)
(** ** Uploading: [upload_script] *)

Lemma open_write_truncate name s h s1 :
  open_write true name s = inr (h, s1) ->
  resolve (fs s) name = inr h
  /\ s1 = with_open_files
            (with_fs s (store h (IFile "" (clock s)) (fs s)))
            (h :: open_files s).
Proof.
  unfold open_write. destruct (resolve (fs s) name) as [e|p]; [discriminate|].
  destruct (lookup p (fs s)) as [[? ?|? ?]|]; [discriminate| |].
  - intros [= <- <-]. split; reflexivity.
  - destruct (is_dir _ _); [|discriminate].
    intros [= <- <-]. split; reflexivity.
Qed.

(** Whatever file name the client sends, a successful upload stores the
    content at the place the plain join of the scripts directory and that
    name resolves to, and reports the joined name. *)
Lemma upload_script_stores_at_join filename content w body w1 :
  upload_script filename content w = (Return body, w1) ->
  field "path" body = Some (JStr (path_join SCRIPTS_DIR filename))
  /\ exists p,
       resolve (fs (os w)) (path_join SCRIPTS_DIR filename) = inr p
       /\ lookup p (fs (os w1)) = Some (IFile content (clock (os w))).
Proof.
  unfold upload_script.
  destruct (open_write true _ (os w)) as [e|[f s1]] eqn:Hopen;
    [discriminate|].
  apply open_write_truncate in Hopen as [Hres ->].
  intros [= <- <-]. split; [reflexivity|].
  exists f. split; [exact Hres|].
  unfold close, write; simpl. rewrite lookup_store_same. simpl.
  now rewrite lookup_store_same.
Qed.

(** The join keeps the client's name as it is: after the directory and one
    separator for a relative name, alone for an absolute one. *)
Lemma path_join_scripts_dir filename :
  path_join SCRIPTS_DIR filename
  = if startswith filename "/" then filename
    else (SCRIPTS_DIR ++ "/" ++ filename)%string.
Proof.
  unfold path_join. destruct (startswith filename "/"); reflexivity.
Qed.

(** C10: [upload_script] writes to the plain join of the scripts directory
    and the client's file name: a successful upload stores the bytes where
    that join resolves to.  For the name [../x] this is [/home/ubuntu/x],
    outside the scripts directory [/home/ubuntu/uploaded_scripts], and
    [start_script] with the same name then finds the file, runs the
    interpreter on the joined name and tracks the instance. *)
Theorem upload_script_path_traversal :
  (forall filename content w body w1,
      upload_script filename content w = (Return body, w1) ->
      field "path" body = Some (JStr (path_join SCRIPTS_DIR filename))
      /\ exists p,
           resolve (fs (os w)) (path_join SCRIPTS_DIR filename) = inr p
           /\ lookup p (fs (os w1)) = Some (IFile content (clock (os w))))
  /\ (forall filename,
         path_join SCRIPTS_DIR filename
         = if startswith filename "/" then filename
           else (SCRIPTS_DIR ++ "/" ++ filename)%string)
  /\ fst (upload_script "../x" "print(1)" boot)
     = Return (JObj [("message", JStr "تم رفع الملف بنجاح");
                     ("filename", JStr "../x");
                     ("path", JStr "/home/ubuntu/uploaded_scripts/../x");
                     ("size", JInt 8);
                     ("timestamp", JInt 0)])
  /\ resolve (fs (os boot)) SCRIPTS_DIR
     = inr ["home"; "ubuntu"; "uploaded_scripts"]
  /\ resolve (fs (os boot)) (path_join SCRIPTS_DIR "../x")
     = inr ["home"; "ubuntu"; "x"]
  /\ is_prefix ["home"; "ubuntu"; "uploaded_scripts"] ["home"; "ubuntu"; "x"]
     = false
  /\ lookup ["home"; "ubuntu"; "x"] (fs (os escaped))
     = Some (IFile "print(1)" 0)
  /\ children ["home"; "ubuntu"; "uploaded_scripts"] (fs (os escaped)) = []
  /\ fst (start_script "../x" escaped)
     = Return (JObj [("message", JStr "تم تشغيل السكريبت بنجاح");
                     ("script_name", JStr "../x");
                     ("pid", JInt 100);
                     ("timestamp", JInt 0)])
  /\ get "../x" (RUNNING_PROCESSES (snd (start_script "../x" escaped)))
     = Some (mkInfo 100 0 "/home/ubuntu/script_logs/../x.log")
  /\ option_map argv
       (find_process 100 (procs (os (snd (start_script "../x" escaped)))))
     = Some ["python3"; "/home/ubuntu/uploaded_scripts/../x"].
Proof.
  split; [exact upload_script_stores_at_join|].
  split; [exact path_join_scripts_dir|].
  repeat split; vm_compute; reflexivity.
Qed.

Lemma upload_script_path_traversal_witness :
  field "path" (JObj [("message", JStr "تم رفع الملف بنجاح");
                      ("filename", JStr "../x");
                      ("path", JStr "/home/ubuntu/uploaded_scripts/../x");
                      ("size", JInt 8);
                      ("timestamp", JInt 0)])
  = Some (JStr (path_join SCRIPTS_DIR "../x"))
  /\ exists p,
       resolve (fs (os boot)) (path_join SCRIPTS_DIR "../x") = inr p
       /\ lookup p (fs (os escaped)) = Some (IFile "print(1)" (clock (os boot))).
Proof.
  apply (proj1 upload_script_path_traversal "../x" "print(1)" boot).
  vm_compute. reflexivity.
Defined.

(* ================================================================== *)
(** ** A life cycle *)

(** Upload a script of ten bytes; it is listed with size 10 and not
    running; start it; its status is [running] with PID 100; stop it; its
    status is [stopped] and the table is empty again. *)
Example life_cycle :
  let w1 := snd (upload_script "a.py" "0123456789" boot) in
  let w2 := snd (start_script "a.py" w1) in
  let w3 := snd (stop_script "a.py" w2) in
  fst (list_scripts w1)
  = Return (JObj [("total", JInt 1);
                  ("scripts",
                   JList [JObj [("name", JStr "a.py");
                                ("size", JInt 10);
                                ("created", JInt 0);
                                ("is_running", JBool false)]]);
                  ("timestamp", JInt 0)])
  /\ field "status" (match fst (get_status "a.py" w2) with
                     | Return body => body
                     | _ => JNull
                     end) = Some (JStr "running")
  /\ field "pid" (match fst (get_status "a.py" w2) with
                  | Return body => body
                  | _ => JNull
                  end) = Some (JInt 100)
  /\ fst (get_status "a.py" w3)
     = Return (JObj [("script_name", JStr "a.py");
                     ("status", JStr "stopped");
                     ("timestamp", JInt 0)])
  /\ RUNNING_PROCESSES w3 = [].
Proof. repeat split; vm_compute; reflexivity. Qed.

(* ================================================================== *)
(** ** More on [upload_script] *)


Lemma length_store (p : path) (i : inode) (fs : filesystem) :
  List.length (store p i fs)
  = if present fs p then List.length fs else S (List.length fs).
Proof.
  unfold present. induction fs as [|[q j] fs IH]; simpl; [reflexivity|].
  destruct (path_eqb p q); simpl; [reflexivity|].
  rewrite IH. destruct (lookup p fs); reflexivity.
Qed.

Lemma store_file_resolve fs p data t name q :
  is_dir fs p = false ->
  resolve fs name = inr q ->
  resolve (store p (IFile data t) fs) name = inr q.
Proof.
  intros Hnd. unfold resolve.
  apply walk_same_dirs. now apply is_dir_store_file.
Qed.

Lemma store_file_keeps_paths fs p data t other :
  is_dir fs p = false ->
  path_exists fs other = true ->
  path_exists (store p (IFile data t) fs) other = true.
Proof.
  intros Hnd. unfold path_exists.
  destruct (resolve fs other) as [e|q] eqn:Hres; [discriminate|].
  rewrite (store_file_resolve fs p data t other q Hnd Hres).
  apply present_store.
Qed.

Lemma is_dir_store_file_same fs p data t :
  is_dir (store p (IFile data t) fs) p = false.
Proof. unfold is_dir. now rewrite lookup_store_same. Qed.

Lemma upload_script_returns filename content w body w1 :
  upload_script filename content w = (Return body, w1) ->
  exists p,
    resolve (fs (os w)) (path_join SCRIPTS_DIR filename) = inr p
    /\ is_dir (fs (os w)) p = false
    /\ w1 = after_upload w p content
    /\ body = JObj [("message", JStr "تم رفع الملف بنجاح");
                    ("filename", JStr filename);
                    ("path", JStr (path_join SCRIPTS_DIR filename));
                    ("size", JInt (Z.of_nat (String.length content)));
                    ("timestamp", JInt (clock (os w)))].
Proof.
  unfold upload_script.
  destruct (open_write true _ (os w)) as [e|[f s1]] eqn:Hopen;
    [discriminate|].
  assert (Hnd : is_dir (fs (os w)) f = false).
  { revert Hopen. unfold open_write, is_dir.
    destruct (resolve _ _) as [e|p]; [discriminate|].
    destruct (lookup p (fs (os w))) as [[? ?|? ?]|] eqn:Hl; [discriminate| |].
    - intros [= <- _]. now rewrite Hl.
    - destruct (match lookup (removelast p) (fs (os w)) with
                | Some (IDir _ _) => true | _ => false end); [|discriminate].
      intros [= <- _]. now rewrite Hl. }
  apply open_write_truncate in Hopen as [Hres ->].
  intros [= <- <-]. exists f. split; [exact Hres|]. split; [exact Hnd|].
  unfold after_upload, close, write; simpl.
  rewrite lookup_store_same. simpl. rewrite path_eqb_refl.
  split; reflexivity.
Qed.



(** X2: After a successful upload the artifact exists under the name it was
    uploaded with: [start_script] on that name cannot fail with 404. *)
Theorem upload_then_start_finds_artifact filename content w body w1 :
  upload_script filename content w = (Return body, w1) ->
  path_exists (fs (os w1)) (path_join SCRIPTS_DIR filename) = true
  /\ forall e w2,
       start_script filename w1 = (Raise e, w2) -> status_code e = 500.
Proof.
  intros H.
  destruct (upload_script_returns _ _ _ _ _ H) as (p & Hres & Hnd & -> & _).
  assert (Hex : path_exists (fs (os (after_upload w p content)))
                            (path_join SCRIPTS_DIR filename) = true).
  { unfold path_exists, after_upload; simpl.
    rewrite (store_file_resolve _ p content _ _ p
               (is_dir_store_file_same _ p "" _)
               (store_file_resolve _ p "" _ _ p Hnd Hres)).
    unfold present. now rewrite lookup_store_same. }
  split; [exact Hex|].
  intros e w2. unfold start_script. rewrite Hex. simpl.
  destruct (contains filename _).
  - destruct (get filename _); discriminate.
  - destruct (open_write false _ _) as [e'|[h s1]].
    + now intros [= <- _].
    + destruct (Popen _ h s1) as [e'|[q s2]]; [|discriminate].
      now intros [= <- _].
Qed.

Lemma upload_then_start_finds_artifact_witness :
  path_exists (fs (os uploaded)) (path_join SCRIPTS_DIR "a.py") = true.
Proof.
  destruct (upload_script "a.py" "print(1)" boot) as [o w1] eqn:H.
  destruct o as [body|e|e]; try (vm_compute in H; discriminate).
  assert (Hw : w1 = uploaded) by (unfold uploaded; now rewrite H).
  rewrite <- Hw.
  exact (proj1 (upload_then_start_finds_artifact "a.py" "print(1)" boot
                  body w1 H)).
Defined.

(** X3: A second upload under the same name always succeeds and replaces the
    content: the file then holds the second content only, its reported size
    is the length of the second content, and the file system has no more
    entries than after the first upload. *)
Theorem upload_script_overwrites filename c1 c2 w b1 w1 :
  upload_script filename c1 w = (Return b1, w1) ->
  exists p b2 w2,
    upload_script filename c2 w1 = (Return b2, w2)
    /\ lookup p (fs (os w1)) = Some (IFile c1 (clock (os w)))
    /\ lookup p (fs (os w2)) = Some (IFile c2 (clock (os w)))
    /\ field "size" b2 = Some (JInt (Z.of_nat (String.length c2)))
    /\ List.length (fs (os w2)) = List.length (fs (os w1)).
Proof.
  intros H.
  destruct (upload_script_returns _ _ _ _ _ H) as (p & Hres & Hnd & -> & _).
  assert (Hres1 : resolve (fs (os (after_upload w p c1)))
                          (path_join SCRIPTS_DIR filename) = inr p).
  { unfold after_upload; simpl.
    apply store_file_resolve; [apply is_dir_store_file_same|].
    now apply store_file_resolve. }
  assert (Hl1 : lookup p (fs (os (after_upload w p c1)))
                = Some (IFile c1 (clock (os w)))).
  { unfold after_upload; simpl. apply lookup_store_same. }
  destruct (upload_script filename c2 (after_upload w p c1)) as [o w2] eqn:H2.
  assert (Hret : exists b2, o = Return b2).
  { revert H2. unfold upload_script, open_write. rewrite Hres1, Hl1.
    intros [= <- _]. eexists. reflexivity. }
  destruct Hret as [b2 ->].
  destruct (upload_script_returns _ _ _ _ _ H2)
    as (p' & Hres' & _ & -> & ->).
  rewrite Hres1 in Hres'. injection Hres' as <-.
  eexists p, _, _. split; [reflexivity|]. split; [exact Hl1|].
  split; [unfold after_upload; simpl; apply lookup_store_same|].
  split; [reflexivity|].
  unfold after_upload; simpl.
  rewrite !length_store. unfold present.
  rewrite !lookup_store_same. reflexivity.
Qed.

Lemma upload_script_overwrites_witness :
  exists p b2 w2,
    upload_script "a.py" "pass" uploaded = (Return b2, w2)
    /\ lookup p (fs (os uploaded)) = Some (IFile "print(1)" 0)
    /\ lookup p (fs (os w2)) = Some (IFile "pass" 0)
    /\ field "size" b2 = Some (JInt 4)
    /\ List.length (fs (os w2)) = List.length (fs (os uploaded)).
Proof.
  destruct (upload_script "a.py" "print(1)" boot) as [o w1] eqn:H.
  destruct o as [body|e|e]; try (vm_compute in H; discriminate).
  assert (Hw : w1 = uploaded) by (unfold uploaded; now rewrite H).
  rewrite <- Hw.
  exact (upload_script_overwrites "a.py" "print(1)" "pass" boot body w1 H).
Defined.

(* ================================================================== *)
(** ** More on [start_script], [stop_script] and [get_status] *)

(** Opening a file touches the file system and the open files only; in
    append mode every entry that was there is still there, unchanged. *)
Lemma open_write_keeps_rest truncate name s h s1 :
  open_write truncate name s = inr (h, s1) ->
  procs s1 = procs s /\ next_pid s1 = next_pid s /\ clock s1 = clock s
  /\ spawn_fault s1 = spawn_fault s
  /\ (truncate = false ->
      forall q i, lookup q (fs s) = Some i -> lookup q (fs s1) = Some i).
Proof.
  unfold open_write. destruct (resolve (fs s) name) as [e|p]; [discriminate|].
  destruct (lookup p (fs s)) as [[? ?|? ?]|] eqn:Hl; [discriminate| |].
  - intros [= <- <-]. repeat split. intros -> q i Hq. exact Hq.
  - destruct (is_dir _ _); [|discriminate].
    intros [= <- <-]. repeat split. intros _ q i Hq. simpl.
    rewrite lookup_store.
    destruct (path_eqb_spec q p) as [->|_]; [congruence | exact Hq].
Qed.


(** What a start of an untracked script that returns has done. *)
Lemma start_script_fresh script_name w body w1 :
  get script_name (RUNNING_PROCESSES w) = None ->
  start_script script_name w = (Return body, w1) ->
  exists h s1,
    open_write false (path_join LOGS_DIR (script_name ++ ".log")%string)
               (os w) = inr (h, s1)
    /\ path_exists (fs (os w)) (path_join SCRIPTS_DIR script_name) = true
    /\ w1 = mkWorld
              (setitem script_name
                 (mkInfo (next_pid s1) (clock s1)
                    (path_join LOGS_DIR (script_name ++ ".log")%string))
                 (RUNNING_PROCESSES w))
              (with_procs s1
                 (procs s1 ++
                  [(next_pid s1,
                    mkProcess (next_pid s1) true
                      ["python3"; path_join SCRIPTS_DIR script_name]
                      h 0%Q 0)])
                 (next_pid s1 + 1))
    /\ body = JObj [("message", JStr "تم تشغيل السكريبت بنجاح");
                    ("script_name", JStr script_name);
                    ("pid", JInt (next_pid s1));
                    ("timestamp", JInt (clock s1))].
Proof.
  intros Hget. unfold start_script, contains. rewrite Hget.
  destruct (path_exists _ _); simpl; [|discriminate].
  destruct (open_write false _ (os w)) as [e|[h s1]]; [discriminate|].
  unfold Popen. destruct (spawn_fault s1); [discriminate|].
  intros [= <- <-]. exists h, s1. repeat split.
Qed.










(** X7: A start that raises has tracked nothing and spawned nothing: the status
    is 404 or 500, and the table, the processes and the next PID are what
    they were. *)
Theorem start_script_failure_spawns_nothing script_name w e w1 :
  start_script script_name w = (Raise e, w1) ->
  (status_code e = 404 \/ status_code e = 500)
  /\ RUNNING_PROCESSES w1 = RUNNING_PROCESSES w
  /\ procs (os w1) = procs (os w)
  /\ next_pid (os w1) = next_pid (os w).
Proof.
  unfold start_script.
  destruct (negb _); [intros [= <- <-]; simpl; tauto|].
  destruct (contains script_name _).
  - destruct (get script_name _); discriminate.
  - destruct (open_write false _ (os w)) as [e'|[h s1]] eqn:Hopen.
    + intros [= <- <-]. simpl. tauto.
    + destruct (open_write_keeps_rest _ _ _ _ _ Hopen) as (Hp & Hn & _).
      destruct (Popen _ h s1) as [e'|[q s2]]; [|discriminate].
      intros [= <- <-]. simpl. tauto.
Qed.

Lemma start_script_failure_spawns_nothing_witness :
  RUNNING_PROCESSES (snd (start_script "a.py" interpreter_missing))
  = RUNNING_PROCESSES interpreter_missing
  /\ procs (os (snd (start_script "a.py" interpreter_missing)))
     = procs (os interpreter_missing).
Proof.
  destruct (start_script "a.py" interpreter_missing) as [o w1] eqn:H.
  destruct o as [body|e|e]; try (vm_compute in H; discriminate).
  destruct (start_script_failure_spawns_nothing _ _ _ _ H)
    as (_ & Ht & Hp & _).
  split; assumption.
Defined.



(** X10: After a stop that returned, the script is untracked: its status is
    [stopped], and a second stop raises the 404 "not running" error and
    changes nothing. *)
Theorem stop_then_stop_not_running script_name w body w1 :
  stop_script script_name w = (Return body, w1) ->
  get script_name (RUNNING_PROCESSES w1) = None
  /\ get_status script_name w1
     = (Return (JObj [("script_name", JStr script_name);
                      ("status", JStr "stopped");
                      ("timestamp", JInt (now (os w1)))]),
        w1)
  /\ stop_script script_name w1
     = (Raise (mkHTTPException 404 "السكريبت غير مشغل" None), w1).
Proof.
  intros Hstop.
  assert (Hnone : get script_name (RUNNING_PROCESSES w1) = None).
  { revert Hstop. unfold stop_script.
    destruct (negb _); [discriminate|].
    destruct (get script_name _) as [info|]; [|discriminate].
    destruct (getpgid _ _) as [e|g]; [discriminate|].
    destruct (killpg g (os w)) as [e|s1]; [discriminate|].
    intros [= _ <-]. simpl. apply get_delitem_same. }
  split; [exact Hnone|].
  unfold get_status, stop_script, contains. rewrite Hnone. simpl.
  split; reflexivity.
Qed.

Lemma stop_then_stop_not_running_witness :
  stop_script "a.py" (snd (stop_script "a.py" running))
  = (Raise (mkHTTPException 404 "السكريبت غير مشغل" None),
     snd (stop_script "a.py" running)).
Proof.
  destruct (stop_script "a.py" running) as [o w1] eqn:H.
  destruct o as [body|e|e]; try (vm_compute in H; discriminate).
  exact (proj2 (proj2 (stop_then_stop_not_running "a.py" running body w1 H))).
Defined.

(** X11: [get_status] always returns (it never raises), and its answer is
    decided by the table and the live processes alone: [stopped] exactly
    for an untracked name, [running] with the recorded PID for a tracked
    name whose PID is live, [error] for a tracked name whose PID is not.
    It changes neither the table nor the files nor the processes. *)
Theorem get_status_cases script_name w :
  exists body,
    fst (get_status script_name w) = Return body
    /\ RUNNING_PROCESSES (snd (get_status script_name w))
       = RUNNING_PROCESSES w
    /\ fs (os (snd (get_status script_name w))) = fs (os w)
    /\ procs (os (snd (get_status script_name w))) = procs (os w)
    /\ match get script_name (RUNNING_PROCESSES w) with
       | None => field "status" body = Some (JStr "stopped")
       | Some info =>
           match find_process (pid info) (procs (os w)) with
           | Some _ =>
               field "status" body = Some (JStr "running")
               /\ field "pid" body = Some (JInt (pid info))
               /\ field "start_time" body = Some (JInt (start_time info))
           | None => field "status" body = Some (JStr "error")
           end
       end.
Proof.
  unfold get_status, contains, probe.
  destruct (get script_name (RUNNING_PROCESSES w)) as [info|]; simpl.
  - destruct (find_process (pid info) (procs (os w))) as [pr|]; simpl;
      eexists; repeat split.
  - eexists; repeat split.
Qed.

(* ================================================================== *)
(** ** More on [get_logs] *)

Lemma get_logs_positive_witness :
  exists recent_lines,
    get_logs ascii_codec "a.py" 1 logged
    = (Return (JObj [("script_name", JStr "a.py");
                     ("logs", JStr (join_empty recent_lines));
                     ("total_lines", JInt 2);
                     ("timestamp", JInt 9)]),
       logged)
    /\ (Z.of_nat (List.length recent_lines) <= 1).
Proof.
  destruct (get_logs_positive ascii_codec "a.py" 1 logged
              [String.append "one" (String LF "");
               String.append "two" (String LF "")])
    as (recent & Hlogs & _ & Hlen & _);
    [lia | vm_compute; reflexivity | vm_compute; reflexivity |].
  exists recent. split; [exact Hlogs | exact Hlen].
Defined.

(** X13: Asking for at least as many lines as the log has (and at least one)
    gives the whole text back: what was split into lines is put together
    again without loss, line ends translated to LF. *)
Theorem get_logs_whole_text decode script_name lines w p data t text :
  resolve (fs (os w)) (log_path script_name w) = inr p ->
  lookup p (fs (os w)) = Some (IFile data t) ->
  decode data = Some text ->
  0 < lines ->
  Z.of_nat (List.length (readlines (universal_newlines text))) <= lines ->
  get_logs decode script_name lines w
  = (Return (JObj [("script_name", JStr script_name);
                   ("logs", JStr (universal_newlines text));
                   ("total_lines",
                    JInt (Z.of_nat (List.length
                                      (readlines (universal_newlines text)))));
                   ("timestamp", JInt (now (os w)))]),
     w).
Proof.
  intros Hres Hl Hdec Hpos Hle.
  assert (Hex : path_exists (fs (os w)) (log_path script_name w) = true).
  { unfold path_exists, present. now rewrite Hres, Hl. }
  assert (Hread : read_lines decode (log_path script_name w) (os w)
                  = inr (readlines (universal_newlines text))).
  { unfold read_lines. now rewrite Hres, Hl, Hdec. }
  rewrite (get_logs_readable decode script_name lines w _ Hex Hread).
  rewrite slice_from_neg_pos by exact Hpos.
  replace (List.length (readlines (universal_newlines text))
           - Nat.min (Z.to_nat lines)
               (List.length (readlines (universal_newlines text))))%nat
    with 0%nat by lia.
  simpl skipn. now rewrite join_readlines.
Qed.

Lemma get_logs_whole_text_witness :
  get_logs ascii_codec "a.py" 50 logged
  = (Return (JObj [("script_name", JStr "a.py");
                   ("logs", JStr (universal_newlines two_lines));
                   ("total_lines",
                    JInt (Z.of_nat (List.length
                            (readlines (universal_newlines two_lines)))));
                   ("timestamp", JInt 9)]),
     logged).
Proof.
  apply (get_logs_whole_text ascii_codec "a.py" 50 logged
           ["home"; "ubuntu"; "script_logs"; "a.py.log"] two_lines 5
           two_lines).
  - vm_compute. reflexivity.
  - vm_compute. reflexivity.
  - vm_compute. reflexivity.
  - lia.
  - vm_compute. discriminate.
Defined.

Lemma stop_script_returns script_name w body w1 :
  stop_script script_name w = (Return body, w1) ->
  exists info,
    get script_name (RUNNING_PROCESSES w) = Some info
    /\ RUNNING_PROCESSES w1 = delitem script_name (RUNNING_PROCESSES w)
    /\ fs (os w1) = fs (os w)
    /\ clock (os w1) = clock (os w)
    /\ open_files (os w1) = open_files (os w).
Proof.
  unfold stop_script.
  destruct (negb _); [discriminate|].
  destruct (get script_name _) as [info|]; [|discriminate].
  destruct (getpgid _ _) as [e|g]; [discriminate|].
  unfold killpg.
  destruct (filter (in_group g) (procs (os w))); [discriminate|].
  destruct (existsb _ _); [|discriminate].
  intros [= _ <-]. exists info. repeat split.
Qed.

(** X14: Logs outlive the instance: after a stop that returned, [get_logs]
    answers exactly as it did before the stop, for every [lines], provided
    the entry recorded the conventional log path (as every entry made by
    [start_script] does). *)
Theorem stop_keeps_logs decode script_name lines w info body w1 :
  get script_name (RUNNING_PROCESSES w) = Some info ->
  log_file info = path_join LOGS_DIR (script_name ++ ".log")%string ->
  stop_script script_name w = (Return body, w1) ->
  fst (get_logs decode script_name lines w1)
  = fst (get_logs decode script_name lines w).
Proof.
  intros Hget Hcanon Hstop.
  destruct (stop_script_returns _ _ _ _ Hstop)
    as (info' & _ & Htable & Hfs & Hclock & _).
  unfold get_logs, contains, read_lines, now.
  rewrite Htable, get_delitem_same, Hget, Hcanon, Hfs, Hclock.
  destruct (negb _); [reflexivity|].
  destruct (resolve _ _) as [e|p]; [reflexivity|].
  destruct (lookup p _) as [[? ?|data ?]|]; try reflexivity.
  destruct (decode data); reflexivity.
Qed.

Lemma stop_keeps_logs_witness :
  fst (get_logs ascii_codec "a.py" 10 (snd (stop_script "a.py" running)))
  = fst (get_logs ascii_codec "a.py" 10 running).
Proof.
  destruct (stop_script "a.py" running) as [o w1] eqn:H.
  destruct o as [body|e|e]; try (vm_compute in H; discriminate).
  apply (stop_keeps_logs ascii_codec "a.py" 10 running
           (mkInfo 100 0 "/home/ubuntu/script_logs/a.py.log") body w1);
    [vm_compute; reflexivity | vm_compute; reflexivity | exact H].
Defined.

(* ================================================================== *)
(** ** Properties kept along every sequence of requests *)

Section Preserved.
Variable P : world -> Prop.
Hypothesis P_upload :
  forall filename content w, P w -> P (snd (upload_script filename content w)).
Hypothesis P_start : forall n w, P w -> P (snd (start_script n w)).
Hypothesis P_stop : forall n w, P w -> P (snd (stop_script n w)).
Hypothesis P_status : forall n w, P w -> P (snd (get_status n w)).
Hypothesis P_sleep :
  forall d w, P w -> P (mkWorld (RUNNING_PROCESSES w) (sleep d (os w))).

Lemma restart_one_preserves n restarted w :
  P w -> P (snd (restart_one n (restarted, w))).
Proof.
  intros Hw. unfold restart_one.
  pose proof (P_stop n w Hw) as Hstop.
  destruct (stop_script n w) as [[body|e|e] w1]; simpl in Hstop;
    try exact Hstop.
  pose proof (P_start n _ (P_sleep 1 w1 Hstop)) as Hstart.
  destruct (start_script n _) as [[body'|e|e] w3]; exact Hstart.
Qed.

Lemma restart_all_preserves w : P w -> P (snd (restart_all w)).
Proof.
  intros Hw. unfold restart_all.
  assert (H : forall names restarted w0,
             P w0 ->
             P (snd (fold_left
                       (fun acc script_name => restart_one script_name acc)
                       names (restarted, w0)))).
  { induction names as [|n names IH]; intros restarted w0 H0;
      cbn [fold_left]; [exact H0|].
    pose proof (restart_one_preserves n restarted w0 H0) as H1.
    destruct (restart_one n (restarted, w0)) as [restarted' w']. now apply IH. }
  specialize (H (keys (RUNNING_PROCESSES w)) [] w Hw).
  destruct (fold_left _ _ _) as [restarted w']. exact H.
Qed.

Lemma handle_preserves decode r w : P w -> P (snd (handle decode r w)).
Proof.
  intros Hw. destruct r; simpl.
  - exact Hw.
  - now apply P_upload.
  - now apply P_start.
  - now apply P_stop.
  - now rewrite list_scripts_keeps_world.
  - now apply P_status.
  - now rewrite get_logs_keeps_world.
  - now rewrite dashboard_keeps_world.
  - now apply restart_all_preserves.
Qed.

Lemma serve_preserves decode rs w : P w -> P (serve decode rs w).
Proof.
  revert w. unfold serve. induction rs as [|r rs IH]; intros w Hw; simpl;
    [exact Hw|].
  apply IH. now apply handle_preserves.
Qed.
End Preserved.

Lemma get_delitem_some {V : Type} k k' (d : dict V) v :
  get k (delitem k' d) = Some v -> get k d = Some v.
Proof.
  destruct (String.eqb_spec k k') as [->|Hne].
  - now rewrite get_delitem_same.
  - now rewrite get_delitem_other.
Qed.

Lemma start_script_table script_name w :
  RUNNING_PROCESSES (snd (start_script script_name w)) = RUNNING_PROCESSES w
  \/ exists p t,
       path_exists (fs (os w)) (path_join SCRIPTS_DIR script_name) = true
       /\ RUNNING_PROCESSES (snd (start_script script_name w))
          = setitem script_name
              (mkInfo p t (path_join LOGS_DIR (script_name ++ ".log")%string))
              (RUNNING_PROCESSES w).
Proof.
  unfold start_script.
  destruct (path_exists _ _) eqn:Hex; simpl; [|now left].
  destruct (contains script_name _).
  - destruct (get script_name _); now left.
  - destruct (open_write false _ (os w)) as [e|[h s1]]; [now left|].
    destruct (Popen _ h s1) as [e|[p s2]]; [now left|].
    right. exists p, (now s2). split; reflexivity.
Qed.

Lemma stop_script_table script_name w :
  RUNNING_PROCESSES (snd (stop_script script_name w)) = RUNNING_PROCESSES w
  \/ RUNNING_PROCESSES (snd (stop_script script_name w))
     = delitem script_name (RUNNING_PROCESSES w).
Proof.
  unfold stop_script.
  destruct (negb _); [now left|].
  destruct (get script_name _); [|now left].
  destruct (getpgid _ _); [now left|].
  destruct (killpg _ _); [now left | now right].
Qed.

Lemma log_files_canonical_serve decode rs w :
  log_files_canonical w -> log_files_canonical (serve decode rs w).
Proof.
  apply serve_preserves; unfold log_files_canonical.
  - intros f c w0 H n info. rewrite upload_script_keeps_table. apply H.
  - intros n0 w0 H n info.
    destruct (start_script_table n0 w0) as [-> | (p & t & _ & ->)];
      [apply H|].
    destruct (String.eqb_spec n n0) as [->|Hne].
    + rewrite get_setitem_same. now intros [= <-].
    + rewrite get_setitem_other by exact Hne. apply H.
  - intros n0 w0 H n info.
    destruct (stop_script_table n0 w0) as [-> | ->]; [apply H|].
    intros Hd. apply (H n). now apply get_delitem_some in Hd.
  - intros n0 w0 H n info. rewrite get_status_keeps_table. apply H.
  - intros d w0 H. exact H.
Qed.

(** X15: Along every sequence of requests, every table entry records the
    conventional log path of its script name; so [get_logs] reads the same
    file whether the script is tracked or not. *)
Theorem log_path_is_conventional decode rs w :
  log_files_canonical w ->
  log_files_canonical (serve decode rs w)
  /\ forall script_name,
       log_path script_name (serve decode rs w)
       = path_join LOGS_DIR (script_name ++ ".log")%string.
Proof.
  intros Hw.
  pose proof (log_files_canonical_serve decode rs w Hw) as H.
  split; [exact H|].
  intros n. unfold log_path.
  destruct (get n _) as [info|] eqn:Hget; [now apply (H n) | reflexivity].
Qed.

Lemma log_path_is_conventional_witness :
  log_path "a.py"
    (serve ascii_codec [Upload "a.py" "print(1)"; Start "a.py"] boot)
  = path_join LOGS_DIR "a.py.log".
Proof.
  assert (Hboot : log_files_canonical boot) by (intros n info; discriminate).
  exact (proj2 (log_path_is_conventional ascii_codec
                  [Upload "a.py" "print(1)"; Start "a.py"] boot Hboot) "a.py").
Defined.

(* ================================================================== *)
(** ** Artifacts stay in place *)

Lemma upload_script_keeps_paths filename content w other :
  path_exists (fs (os w)) other = true ->
  path_exists (fs (os (snd (upload_script filename content w)))) other = true.
Proof.
  intros Hex.
  destruct (upload_script filename content w) as [[body|e|e] w1] eqn:H.
  - destruct (upload_script_returns _ _ _ _ _ H) as (p & _ & Hnd & -> & _).
    unfold after_upload; simpl.
    apply store_file_keeps_paths; [apply is_dir_store_file_same|].
    now apply store_file_keeps_paths.
  - revert H. unfold upload_script.
    destruct (open_write true _ (os w)) as [e'|[f s1]]; [|discriminate].
    now intros [= _ <-].
  - revert H. unfold upload_script.
    destruct (open_write true _ (os w)) as [e'|[f s1]]; discriminate.
Qed.

Lemma start_script_keeps_paths script_name w other :
  path_exists (fs (os w)) other = true ->
  path_exists (fs (os (snd (start_script script_name w)))) other = true.
Proof.
  intros Hex. unfold start_script.
  destruct (negb _); [exact Hex|].
  destruct (contains script_name _).
  - destruct (get script_name _); exact Hex.
  - destruct (open_write false _ (os w)) as [e|[h s1]] eqn:Hopen;
      [exact Hex|].
    pose proof (open_write_keeps_paths _ _ _ _ _ other Hopen Hex) as H1.
    destruct (Popen _ h s1) as [e|[p s2]] eqn:Hspawn; simpl; [exact H1|].
    now rewrite (Popen_keeps_fs _ _ _ _ _ Hspawn).
Qed.

Lemma stop_script_keeps_fs script_name w :
  fs (os (snd (stop_script script_name w))) = fs (os w).
Proof.
  unfold stop_script.
  destruct (negb _); [reflexivity|].
  destruct (get script_name _); [|reflexivity].
  destruct (getpgid _ _); [reflexivity|].
  unfold killpg. destruct (filter _ _); [reflexivity|].
  destruct (existsb _ _); reflexivity.
Qed.

Lemma get_status_keeps_fs script_name w :
  fs (os (snd (get_status script_name w))) = fs (os w).
Proof.
  unfold get_status, probe.
  destruct (negb _); [reflexivity|].
  destruct (get script_name _); [|reflexivity].
  destruct (find_process _ _); reflexivity.
Qed.

Lemma artifacts_in_place_serve decode rs w :
  artifacts_in_place w -> artifacts_in_place (serve decode rs w).
Proof.
  apply serve_preserves; unfold artifacts_in_place.
  - intros f c w0 H n info. rewrite upload_script_keeps_table. intros Hget.
    apply upload_script_keeps_paths. now apply (H n info).
  - intros n0 w0 H n info.
    destruct (start_script_table n0 w0) as [Ht | (p & t & Hex & Ht)];
      rewrite Ht.
    + intros Hget. apply start_script_keeps_paths. now apply (H n info).
    + destruct (String.eqb_spec n n0) as [->|Hne].
      * intros _. now apply start_script_keeps_paths.
      * rewrite get_setitem_other by exact Hne. intros Hget.
        apply start_script_keeps_paths. now apply (H n info).
  - intros n0 w0 H n info. rewrite stop_script_keeps_fs.
    destruct (stop_script_table n0 w0) as [-> | ->]; [apply H|].
    intros Hd. apply (H n info). now apply get_delitem_some in Hd.
  - intros n0 w0 H n info.
    rewrite get_status_keeps_table, get_status_keeps_fs. apply H.
  - intros d w0 H. exact H.
Qed.

(** X16: As long as files only change through the service's own requests, a
    tracked script always has its artifact: from a world where that holds
    (the world at start-up, for one) and after any sequence of requests,
    [start_script] on a tracked name returns the recorded PID and leaves
    everything as it is. *)
Theorem serve_start_tracked_is_idempotent decode rs w script_name info :
  artifacts_in_place w ->
  get script_name (RUNNING_PROCESSES (serve decode rs w)) = Some info ->
  path_exists (fs (os (serve decode rs w)))
              (path_join SCRIPTS_DIR script_name) = true
  /\ start_script script_name (serve decode rs w)
     = (Return (already_running script_name (pid info)), serve decode rs w).
Proof.
  intros Hw Hget.
  pose proof (artifacts_in_place_serve decode rs w Hw script_name info Hget)
    as Hex.
  split; [exact Hex|]. now apply start_script_tracked.
Qed.

Lemma serve_start_tracked_is_idempotent_witness :
  start_script "a.py"
    (serve ascii_codec [Upload "a.py" "print(1)"; Start "a.py"; RestartAll]
           boot)
  = (Return (already_running "a.py" 101),
     serve ascii_codec [Upload "a.py" "print(1)"; Start "a.py"; RestartAll]
           boot).
Proof.
  assert (Hboot : artifacts_in_place boot) by (intros n info; discriminate).
  apply (proj2 (serve_start_tracked_is_idempotent ascii_codec
                  [Upload "a.py" "print(1)"; Start "a.py"; RestartAll]
                  boot "a.py"
                  (mkInfo 101 1 "/home/ubuntu/script_logs/a.py.log")
                  Hboot eq_refl)).
Defined.

(* ================================================================== *)
(** ** [health_check] and [dashboard] *)

Lemma length_setitem_absent {V : Type} k (v : V) (d : dict V) :
  get k d = None -> List.length (setitem k v d) = S (List.length d).
Proof.
  induction d as [|[k' v'] d IH]; simpl; [reflexivity|].
  destruct (String.eqb k k'); [discriminate|].
  intros H. simpl. now rewrite IH.
Qed.

Lemma length_delitem {V : Type} k (d : dict V) :
  (List.length (delitem k d) + entries_for k d)%nat = List.length d.
Proof.
  unfold delitem, entries_for.
  induction d as [|[k' v'] d IH]; simpl; [reflexivity|].
  destruct (String.eqb k k'); simpl; lia.
Qed.

(** X17: The count [health_check] reports follows the starts and stops: a start
    of an untracked script that returns raises it by one; a stop that
    returns lowers it by one (the table having one entry per name). *)
Theorem health_check_counts script_name w body w1 :
  (get script_name (RUNNING_PROCESSES w) = None ->
   start_script script_name w = (Return body, w1) ->
   field "running_processes" (body_of (fst (health_check w1)))
   = Some (JInt (len (RUNNING_PROCESSES w) + 1)))
  /\ (at_most_one_instance w ->
      stop_script script_name w = (Return body, w1) ->
      field "running_processes" (body_of (fst (health_check w1)))
      = Some (JInt (len (RUNNING_PROCESSES w) - 1))).
Proof.
  split.
  - intros Hget Hstart.
    destruct (start_script_fresh _ _ _ _ Hget Hstart)
      as (h & s1 & _ & _ & -> & _).
    unfold health_check, len; simpl.
    rewrite length_setitem_absent by exact Hget.
    do 2 f_equal. lia.
  - intros Huniq Hstop.
    destruct (stop_script_returns _ _ _ _ Hstop)
      as (info & Hget & Ht & _).
    unfold health_check, len; simpl. rewrite Ht.
    pose proof (length_delitem script_name (RUNNING_PROCESSES w)) as Hlen.
    pose proof (entries_for_get_some _ _ _ Hget) as H1.
    specialize (Huniq script_name).
    do 2 f_equal. lia.
Qed.

Lemma health_check_counts_witness :
  field "running_processes" (body_of (fst (health_check running)))
  = Some (JInt 1)
  /\ field "running_processes"
       (body_of (fst (health_check (snd (stop_script "a.py" running)))))
     = Some (JInt 0).
Proof.
  split.
  - destruct (start_script "a.py" uploaded) as [o w1] eqn:H.
    destruct o as [body|e|e]; try (vm_compute in H; discriminate).
    assert (Hw : running = w1) by (unfold running; now rewrite H).
    rewrite Hw.
    apply (proj1 (health_check_counts "a.py" uploaded body w1));
      [vm_compute; reflexivity | exact H].
  - destruct (stop_script "a.py" running) as [o w1] eqn:H.
    destruct o as [body|e|e]; try (vm_compute in H; discriminate).
    apply (proj2 (health_check_counts "a.py" running body w1)); [|exact H].
    unfold running. apply start_script_keeps_unique.
    unfold uploaded, at_most_one_instance.
    rewrite upload_script_keeps_table. apply boot_unique.
Defined.

Lemma dashboard_loop_spec w filenames all_scripts :
  dashboard_loop w filenames all_scripts
  = all_scripts
    ++ map (dashboard_entry w)
           (filter (fun f => endswith f ".py") filenames).
Proof.
  revert all_scripts. induction filenames as [|f rest IH]; intros acc; simpl.
  - now rewrite app_nil_r.
  - destruct (endswith f ".py"); simpl; [|apply IH].
    rewrite IH, <- app_assoc. reflexivity.
Qed.

Lemma Forall2_map_left {A B C : Type} (R : B -> C -> Prop) (f : A -> B)
      (l : list A) (l' : list C) :
  Forall2 (fun a c => R (f a) c) l l' -> Forall2 R (map f l) l'.
Proof. induction 1; simpl; constructor; assumption. Qed.

(** X18: [dashboard] and [list_scripts] agree: where the scripts directory
    exists (entries of valid names), both return, the dashboard lists the
    same names in the same order, its [total_scripts] is the [total] of the
    listing, a script is shown [running] by the one exactly when the other
    flags it running, and [running_scripts] is the size of the table. *)
Theorem dashboard_agrees_with_list_scripts w d :
  resolve (fs (os w)) SCRIPTS_DIR = inr d ->
  is_dir (fs (os w)) d = true ->
  Forall (fun c => valid_name c = true) (children d (fs (os w))) ->
  exists scripts all_scripts,
    list_scripts w
    = (Return (JObj [("total", JInt (Z.of_nat (List.length scripts)));
                     ("scripts", JList scripts);
                     ("timestamp", JInt (now (os w)))]),
       w)
    /\ dashboard w
       = (Return (JObj [("total_scripts",
                         JInt (Z.of_nat (List.length scripts)));
                        ("running_scripts", JInt (len (RUNNING_PROCESSES w)));
                        ("scripts", JList all_scripts);
                        ("server_time", JInt (now (os w)))]),
          w)
    /\ Forall2
         (fun a b =>
            exists filename,
              field "name" a = Some (JStr filename)
              /\ field "name" b = Some (JStr filename)
              /\ field "status" a
                 = Some (JStr (if contains filename (RUNNING_PROCESSES w)
                               then "running" else "stopped"))
              /\ field "is_running" b
                 = Some (JBool (contains filename (RUNNING_PROCESSES w))))
         all_scripts scripts.
Proof.
  intros Hres Hdir Hvalid.
  destruct (list_scripts_loop_spec w d (children d (fs (os w)))
              Hres Hdir Hvalid (fun c H => H) [])
    as (scripts & Hloop & Hrep).
  exists scripts,
    (map (dashboard_entry w)
         (filter (fun f => endswith f ".py") (children d (fs (os w))))).
  split; [|split].
  - unfold list_scripts, listdir. rewrite Hres, Hdir, Hloop. reflexivity.
  - unfold dashboard, listdir. rewrite Hres, Hdir, dashboard_loop_spec.
    simpl app. rewrite length_map.
    now rewrite (Forall2_length Hrep).
  - apply Forall2_map_left.
    eapply Forall2_impl; [|exact Hrep].
    intros f entry (i & _ & ->). exists f. repeat split.
Qed.

Lemma dashboard_agrees_with_list_scripts_witness :
  exists scripts all_scripts,
    list_scripts mixed
    = (Return (JObj [("total", JInt (Z.of_nat (List.length scripts)));
                     ("scripts", JList scripts);
                     ("timestamp", JInt (now (os mixed)))]),
       mixed)
    /\ dashboard mixed
       = (Return (JObj [("total_scripts",
                         JInt (Z.of_nat (List.length scripts)));
                        ("running_scripts",
                         JInt (len (RUNNING_PROCESSES mixed)));
                        ("scripts", JList all_scripts);
                        ("server_time", JInt (now (os mixed)))]),
          mixed).
Proof.
  destruct (dashboard_agrees_with_list_scripts mixed
              ["home"; "ubuntu"; "uploaded_scripts"])
    as (scripts & all_scripts & H1 & H2 & _).
  - vm_compute. reflexivity.
  - vm_compute. reflexivity.
  - vm_compute. repeat constructor.
  - exists scripts, all_scripts. split; assumption.
Defined.

(* ================================================================== *)
(** ** [restart_all] *)

Lemma stop_script_cases script_name w :
  (exists e, stop_script script_name w = (Raise e, w))
  \/ (exists body info s1,
         get script_name (RUNNING_PROCESSES w) = Some info
         /\ stop_script script_name w
            = (Return body,
               mkWorld (delitem script_name (RUNNING_PROCESSES w)) s1)
         /\ clock s1 = clock (os w)).
Proof.
  unfold stop_script.
  destruct (negb _); [left; eexists; reflexivity|].
  destruct (get script_name _) as [info|]; [|left; eexists; reflexivity].
  destruct (getpgid _ _) as [e|g]; [left; eexists; reflexivity|].
  destruct (killpg g (os w)) as [e|s1] eqn:Hk; [left; eexists; reflexivity|].
  right. eexists _, info, s1. split; [reflexivity|]. split; [reflexivity|].
  revert Hk. unfold killpg. destruct (filter _ _); [discriminate|].
  destruct (existsb _ _); [|discriminate]. now intros [= <-].
Qed.

Lemma start_script_keeps_clock script_name w :
  clock (os (snd (start_script script_name w))) = clock (os w).
Proof.
  unfold start_script.
  destruct (negb _); [reflexivity|].
  destruct (contains script_name _).
  - destruct (get script_name _); reflexivity.
  - destruct (open_write false _ (os w)) as [e|[h s1]] eqn:Hopen;
      [reflexivity|].
    destruct (open_write_keeps_rest _ _ _ _ _ Hopen) as (_ & _ & Hc & _).
    unfold Popen. destruct (spawn_fault s1); simpl; exact Hc.
Qed.

Lemma get_start_script_other script_name w m :
  m <> script_name ->
  get m (RUNNING_PROCESSES (snd (start_script script_name w)))
  = get m (RUNNING_PROCESSES w).
Proof.
  intros Hne.
  destruct (start_script_table script_name w) as [-> | (p & t & _ & ->)];
    [reflexivity | now apply get_setitem_other].
Qed.

(** One turn of the restart loop. *)
Lemma restart_one_spec n restarted w :
  (fst (restart_one n (restarted, w)) = restarted
   \/ (fst (restart_one n (restarted, w)) = restarted ++ [n]
       /\ get n (RUNNING_PROCESSES (snd (restart_one n (restarted, w))))
          <> None))
  /\ (forall m, m <> n ->
        get m (RUNNING_PROCESSES (snd (restart_one n (restarted, w))))
        = get m (RUNNING_PROCESSES w))
  /\ (get n (RUNNING_PROCESSES (snd (restart_one n (restarted, w)))) <> None ->
      get n (RUNNING_PROCESSES w) <> None)
  /\ clock (os w) + Z.of_nat (List.length (fst (restart_one n (restarted, w))))
     <= clock (os (snd (restart_one n (restarted, w))))
        + Z.of_nat (List.length restarted)
  /\ clock (os (snd (restart_one n (restarted, w)))) <= clock (os w) + 1.
Proof.
  unfold restart_one.
  destruct (stop_script_cases n w)
    as [[e ->] | (body & info & s1 & Hget & -> & Hclock)].
  - simpl. repeat split; try tauto; lia.
  - set (w2 := mkWorld (RUNNING_PROCESSES
                          (mkWorld (delitem n (RUNNING_PROCESSES w)) s1))
                       (sleep 1 (os (mkWorld
                                       (delitem n (RUNNING_PROCESSES w)) s1)))).
    pose proof (start_script_keeps_clock n w2) as Hc.
    pose proof (fun m => get_start_script_other n w2 m) as Hother.
    destruct (start_script n w2) as [o w3] eqn:Hstart. simpl in Hc, Hother.
    assert (Hm : forall m, m <> n ->
               get m (RUNNING_PROCESSES w3) = get m (RUNNING_PROCESSES w)).
    { intros m Hne. rewrite (Hother m Hne). now apply get_delitem_other. }
    assert (Hn : get n (RUNNING_PROCESSES w) <> None) by congruence.
    destruct o as [body'|e|e]; simpl.
    + destruct (start_script_returns _ _ _ _ Hstart) as (info' & Hget' & _).
      split; [right; split; [reflexivity | congruence]|].
      split; [exact Hm|]. split; [intros _; exact Hn|].
      rewrite length_app; simpl. lia.
    + split; [now left|]. split; [exact Hm|]. split; [intros _; exact Hn|].
      lia.
    + split; [now left|]. split; [exact Hm|]. split; [intros _; exact Hn|].
      lia.
Qed.

Lemma subsequence_nil_l big : subsequence [] big = true.
Proof. destruct big; reflexivity. Qed.

Lemma subsequence_skip a l big :
  ~ In a l -> subsequence l big = true -> subsequence l (a :: big) = true.
Proof.
  destruct l as [|b l]; [reflexivity|].
  intros Hnin H. simpl.
  destruct (String.eqb_spec b a) as [->|_]; [|exact H].
  exfalso. apply Hnin. now left.
Qed.

(** The restart loop over names without repetition. *)
Lemma restart_loop_spec names :
  NoDup names ->
  forall restarted w,
  exists extra w',
    fold_left (fun acc script_name => restart_one script_name acc)
              names (restarted, w)
    = (restarted ++ extra, w')
    /\ subsequence extra names = true
    /\ (forall n, In n extra ->
          In n names /\ get n (RUNNING_PROCESSES w') <> None)
    /\ (forall m, ~ In m names ->
          get m (RUNNING_PROCESSES w') = get m (RUNNING_PROCESSES w))
    /\ (forall m, get m (RUNNING_PROCESSES w') <> None ->
          get m (RUNNING_PROCESSES w) <> None)
    /\ clock (os w) + Z.of_nat (List.length extra) <= clock (os w')
    /\ clock (os w') <= clock (os w) + Z.of_nat (List.length names).
Proof.
  induction 1 as [|n names Hnin Hnd IH]; intros restarted w;
    cbn [fold_left].
  - exists [], w. rewrite app_nil_r. repeat split; simpl; try tauto; lia.
  - destruct (restart_one_spec n restarted w)
      as (Hfst & Hother & Hself & Hlo & Hhi).
    destruct (restart_one n (restarted, w)) as [r1 w1]. simpl in *.
    destruct (IH r1 w1)
      as (extra & w' & Hfold & Hsub & Hin & Hout & Hback & Hlo' & Hhi').
    assert (Hextra_notin : ~ In n extra).
    { intros Habs. apply Hnin. now apply Hin. }
    assert (Hback' : forall m, get m (RUNNING_PROCESSES w') <> None ->
                       get m (RUNNING_PROCESSES w) <> None).
    { intros m Hm. apply Hback in Hm.
      destruct (String.eqb_spec m n) as [->|Hne]; [now apply Hself|].
      now rewrite <- (Hother m Hne). }
    assert (Hout' : forall m, ~ In m (n :: names) ->
                      get m (RUNNING_PROCESSES w')
                      = get m (RUNNING_PROCESSES w)).
    { intros m Hm. rewrite Hout by (intros Habs; apply Hm; now right).
      apply Hother. intros ->. apply Hm. now left. }
    destruct Hfst as [-> | [-> Htracked]].
    + exists extra, w'. split; [exact Hfold|].
      split; [now apply subsequence_skip|].
      split; [intros m Hm; destruct (Hin m Hm); split; [now right | assumption]|].
      split; [exact Hout'|]. split; [exact Hback'|].
      simpl length. lia.
    + exists (n :: extra), w'.
      split; [rewrite Hfold, <- app_assoc; reflexivity|].
      split; [simpl; now rewrite String.eqb_refl|].
      split.
      { intros m [<- | Hm].
        - split; [now left|]. now rewrite (Hout n Hnin).
        - destruct (Hin m Hm). split; [now right | assumption]. }
      split; [exact Hout'|]. split; [exact Hback'|].
      rewrite length_app in Hlo. simpl length in *. lia.
Qed.

Lemma in_keys_get {V : Type} k (d : dict V) :
  In k (keys d) <-> get k d <> None.
Proof.
  unfold keys. induction d as [|[k' v'] d IH]; simpl.
  - split; [contradiction | congruence].
  - destruct (String.eqb_spec k k') as [->|Hne].
    + split; [discriminate | now left].
    + rewrite <- IH. split; [intros [H|H]; [congruence | exact H] | now right].
Qed.

Lemma unique_keys_NoDup {V : Type} (d : dict V) :
  (forall n, (entries_for n d <= 1)%nat) -> NoDup (keys d).
Proof.
  unfold keys. induction d as [|[k v] d IH]; simpl; intros H;
    constructor.
  - intros Hin. apply (in_keys_get k d) in Hin.
    destruct (get k d) as [v'|] eqn:Hget; [|congruence].
    pose proof (entries_for_get_some _ _ _ Hget) as H1.
    specialize (H k). unfold entries_for in *. simpl in H.
    rewrite String.eqb_refl in H. simpl in H. lia.
  - apply IH. intros n. specialize (H n).
    unfold entries_for in *. simpl in H.
    destruct (String.eqb n k); simpl in H; lia.
Qed.

(** X19: [restart_all] always returns.  The names it reports are tracked names,
    each at most once and in table order, and each is tracked again
    afterwards; no name is tracked afterwards that was not tracked before (a
    script whose stop succeeded and whose start failed is dropped from the
    table and does not appear in the report); the call blocks for at least
    one second per reported script and at most one per tracked script. *)
Theorem restart_all_report w :
  at_most_one_instance w ->
  exists restarted w',
    restart_all w
    = (Return (JObj [("message", JStr "تمت إعادة التشغيل");
                     ("restarted", JList (map JStr restarted));
                     ("timestamp", JInt (now (os w')))]),
       w')
    /\ subsequence restarted (keys (RUNNING_PROCESSES w)) = true
    /\ (forall n, In n restarted ->
          contains n (RUNNING_PROCESSES w) = true
          /\ contains n (RUNNING_PROCESSES w') = true)
    /\ (forall n, contains n (RUNNING_PROCESSES w') = true ->
          contains n (RUNNING_PROCESSES w) = true)
    /\ clock (os w) + Z.of_nat (List.length restarted) <= clock (os w')
    /\ clock (os w')
       <= clock (os w) + Z.of_nat (List.length (keys (RUNNING_PROCESSES w))).
Proof.
  intros Huniq.
  assert (Hc : forall (d : dict process_info) n,
             contains n d = true <-> get n d <> None).
  { intros d n. unfold contains. destruct (get n d); split; congruence. }
  destruct (restart_loop_spec (keys (RUNNING_PROCESSES w))
              (unique_keys_NoDup _ Huniq) [] w)
    as (restarted & w' & Hfold & Hsub & Hin & _ & Hback & Hlo & Hhi).
  exists restarted, w'. unfold restart_all. rewrite Hfold. simpl.
  split; [reflexivity|]. split; [exact Hsub|].
  split; [|split; [|split; assumption]].
  - intros n Hn. destruct (Hin n Hn) as [Hk Ht].
    split; apply Hc; [now apply in_keys_get | exact Ht].
  - intros n Hn. apply Hc. apply Hback. now apply Hc.
Qed.

Lemma restart_all_report_witness :
  exists restarted w',
    restart_all running
    = (Return (JObj [("message", JStr "تمت إعادة التشغيل");
                     ("restarted", JList (map JStr restarted));
                     ("timestamp", JInt (now (os w')))]),
       w')
    /\ subsequence restarted (keys (RUNNING_PROCESSES running)) = true.
Proof.
  assert (Hu : at_most_one_instance running).
  { unfold running. apply start_script_keeps_unique.
    unfold uploaded, at_most_one_instance.
    rewrite upload_script_keeps_table. apply boot_unique. }
  destruct (restart_all_report running Hu)
    as (restarted & w' & H1 & H2 & _).
  exists restarted, w'. split; assumption.
Defined.

(* ================================================================== *)
(** ** Upload, then list; start, then logs *)







(** X9: A start of an untracked script that returns has made sure the log file
    exists: [get_logs] on that script then never answers "no logs yet"; it
    returns a body with [total_lines], or raises 500 when the log cannot be
    read. *)
Theorem start_then_logs_exist decode script_name lines w body w1 :
  get script_name (RUNNING_PROCESSES w) = None ->
  start_script script_name w = (Return body, w1) ->
  path_exists (fs (os w1)) (log_path script_name w1) = true
  /\ match fst (get_logs decode script_name lines w1) with
     | Return b => exists total, field "total_lines" b = Some (JInt total)
     | Raise e => status_code e = 500
     | Uncaught _ => False
     end.
Proof.
  intros Hget Hstart.
  destruct (start_script_fresh _ _ _ _ Hget Hstart)
    as (h & s1 & Hopen & _ & -> & _).
  assert (Hlog : log_path script_name
                   (mkWorld
                      (setitem script_name
                         (mkInfo (next_pid s1) (clock s1)
                            (path_join LOGS_DIR (script_name ++ ".log")%string))
                         (RUNNING_PROCESSES w))
                      (with_procs s1
                         (procs s1 ++
                          [(next_pid s1,
                            mkProcess (next_pid s1) true
                              ["python3"; path_join SCRIPTS_DIR script_name]
                              h 0%Q 0)])
                         (next_pid s1 + 1)))
                 = path_join LOGS_DIR (script_name ++ ".log")%string).
  { unfold log_path; simpl. now rewrite get_setitem_same. }
  assert (Hex : path_exists (fs s1)
                  (path_join LOGS_DIR (script_name ++ ".log")%string) = true).
  { revert Hopen. unfold open_write, path_exists.
    destruct (resolve (fs (os w)) _) as [e|p] eqn:Hres; [discriminate|].
    destruct (lookup p (fs (os w))) as [[? ?|data t]|] eqn:Hl; [discriminate| |].
    - intros [= <- <-]. simpl. rewrite Hres. unfold present. now rewrite Hl.
    - destruct (is_dir _ (removelast p)); [|discriminate].
      intros [= <- <-]. simpl.
      assert (Hnd : is_dir (fs (os w)) p = false)
        by (unfold is_dir; now rewrite Hl).
      rewrite (store_file_resolve _ p "" _ _ p Hnd Hres).
      unfold present. now rewrite lookup_store_same. }
  rewrite Hlog. split; [exact Hex|].
  unfold get_logs, contains; simpl. rewrite get_setitem_same; simpl.
  unfold path_exists in Hex |- *. simpl.
  destruct (resolve (fs s1) _) as [e|p]; [discriminate|].
  rewrite Hex. simpl.
  destruct (read_lines decode _ _) as [e|all_lines]; simpl.
  - reflexivity.
  - eexists. reflexivity.
Qed.

Lemma start_then_logs_exist_witness :
  path_exists (fs (os running)) (log_path "a.py" running) = true.
Proof.
  destruct (start_script "a.py" uploaded) as [o w1] eqn:H.
  destruct o as [body|e|e]; try (vm_compute in H; discriminate).
  assert (Hw : running = w1) by (unfold running; now rewrite H).
  rewrite Hw.
  apply (proj1 (start_then_logs_exist ascii_codec "a.py" 50 uploaded body w1
                  eq_refl H)).
Defined.
